(** * Office-PowerPoint-MCP-Server: path sanitisation and S3 transfer

    A shallow embedding of [utils/core_utils.py] ([sanitize_path]),
    [utils/s3_utils.py] and the S3 tools of [tools/s3_tools.py] and
    [tools/s3_xlsx_tools.py]. *)

From Stdlib Require Import String Ascii List Bool Arith Lia DecimalString.
Import ListNotations.
Open Scope string_scope.
Set Warnings "-register-all".

(* ------------------------------------------------------------------ *)
(** ** Paths (pathlib.PurePosixPath) *)

Module PathModel.

(** A pure POSIX path: whether it has a root and its parts.  pathlib drops
    empty parts and [.] parts when it parses a string; [..] is kept.  The
    POSIX special root [//] is folded into [/]. *)
Record PurePath := mkPath { root : bool; parts : list string }.

(** Split a string on ['/'] ([str.split('/')]). *)
Fixpoint split_slash_aux (s : string) (cur : string) : list string :=
  match s with
  | EmptyString => [cur]
  | String c rest =>
      if Ascii.eqb c "/"%char then cur :: split_slash_aux rest ""
      else split_slash_aux rest (cur ++ String c EmptyString)
  end.

Definition split_slash (s : string) : list string := split_slash_aux s "".

Definition starts_with_slash (s : string) : bool :=
  match s with
  | String c _ => Ascii.eqb c "/"%char
  | EmptyString => false
  end.

(** [pathlib.Path(s)] *)
Definition parse (s : string) : PurePath :=
  mkPath (starts_with_slash s)
         (filter (fun p => negb (String.eqb p "" || String.eqb p ".")) (split_slash s)).

(** Whether a string contains ['/']. *)
Fixpoint has_slash (s : string) : bool :=
  match s with
  | EmptyString => false
  | String c rest => Ascii.eqb c "/"%char || has_slash rest
  end.

(** [p.is_absolute()] *)
Definition is_absolute (p : PurePath) : bool := root p.

(** [p.name]: the final part, or the empty string when there is none. *)
Definition name (p : PurePath) : string := last (parts p) "".

(** [a / b]: joining with an absolute path replaces the left side. *)
Definition join (a b : PurePath) : PurePath :=
  if root b then b else mkPath (root a) (parts a ++ parts b).

(** [str(p)] for a rooted path. *)
Definition abs_str (ps : list string) : string :=
  "/" ++ String.concat "/" ps.

(** [resolved.relative_to(base)] succeeds iff [base] is [resolved] or one of
    its parents: a prefix of the parts. *)
Fixpoint is_prefix (b r : list string) : bool :=
  match b, r with
  | [], _ => true
  | x :: b', y :: r' => String.eqb x y && is_prefix b' r'
  | _ :: _, [] => false
  end.

(** A filesystem without symbolic links: canonicalisation only removes
    [..] (at the root [..] stays at the root). *)
Fixpoint lexical_realpath_aux (acc : list string) (ps : list string) : list string :=
  match ps with
  | [] => rev acc
  | p :: ps' =>
      if String.eqb p ".." then lexical_realpath_aux (tl acc) ps'
      else lexical_realpath_aux (p :: acc) ps'
  end.

Definition lexical_realpath (ps : list string) : list string :=
  lexical_realpath_aux [] ps.

End PathModel.

Import PathModel.

(** Python exceptions raised or propagated by the code. *)
Inductive PyExc :=
| ValueError (msg : string)
| TypeError (msg : string)
| KeyError (key : string)
| IndexError (msg : string)
| FileNotFoundError (msg : string)
| GenericException (msg : string)              (** [Exception(msg)] *)
| AttributeError (msg : string)
| NoCredentialsError                           (** botocore, client side *)
| ClientError (code msg operation : string).   (** botocore, from the service *)

(** [str(e)] *)
Definition exc_str (e : PyExc) : string :=
  match e with
  | ValueError m | TypeError m | IndexError m | AttributeError m
  | FileNotFoundError m | GenericException m => m
  | KeyError k => "'" ++ k ++ "'"
  | NoCredentialsError => "Unable to locate credentials"
  | ClientError c m op =>
      "An error occurred (" ++ c ++ ") when calling the " ++ op ++ " operation: " ++ m
  end.

(* ------------------------------------------------------------------ *)
(** ** [sanitize_path] (core_utils.py) *)

Section Sanitize.

(** The filesystem's canonicalisation of an absolute path (the parts of
    [os.path.realpath]: symbolic links and [..] resolved), and the process
    working directory. *)
Variable realpath : list string -> list string.
Variable cwd : list string.

(** [Path(p).resolve()]: a relative path is first made absolute against the
    working directory. *)
Definition resolve (p : PurePath) : list string :=
  realpath (if root p then parts p else cwd ++ parts p).

Definition traversal_message (file_path : string) (resolved base : list string) : string :=
  "Path traversal detected: '" ++ file_path ++ "' resolves to '" ++ abs_str resolved
  ++ "' which is outside the allowed directory '" ++ abs_str base ++ "'".

(** [base_path = pathlib.Path(base_dir).resolve()], [base_dir] defaulting to
    [os.getcwd()]. *)
Definition base_path_of (base_dir : option string) : list string :=
  match base_dir with
  | None => resolve (mkPath true cwd)
  | Some b => resolve (parse b)
  end.

(** The path the containment check is applied to (lines 93-97). *)
Definition resolved_path_of (file_path : string) (base_path : list string) : list string :=
  let fp := parse file_path in
  let bp := mkPath true base_path in
  if is_absolute fp then resolve (join bp (parse (name fp)))
  else resolve (join bp fp).

Definition sanitize_path (file_path : string) (base_dir : option string)
    (allow_absolute : bool) : PyExc + string :=
  let base_path := base_path_of base_dir in
  let fp := parse file_path in
  if allow_absolute && is_absolute fp then inr (abs_str (resolve fp))
  else
    let resolved_path := resolved_path_of file_path base_path in
    if is_prefix base_path resolved_path then inr (abs_str resolved_path)
    else inl (ValueError (traversal_message file_path resolved_path base_path)).

End Sanitize.

(* ------------------------------------------------------------------ *)
(** ** Data: Python values, documents, workbooks *)

Definition bytes := list Byte.byte.

(** Python values held in the result dicts of the tools. *)
Inductive PyVal :=
| VNone
| VBool (b : bool)
| VInt (n : nat)
| VStr (s : string)
| VList (l : list PyVal)
| VDict (d : list (string * PyVal)).

(** A Python dict with string keys, in insertion order. *)
Definition Dict := list (string * PyVal).

Fixpoint dict_get {V} (k : string) (d : list (string * V)) : option V :=
  match d with
  | [] => None
  | (k', v) :: d' => if String.eqb k k' then Some v else dict_get k d'
  end.

Definition dict_mem {V} (k : string) (d : list (string * V)) : bool :=
  match dict_get k d with Some _ => true | None => false end.

(** [d[k] = v]: replaces the value in place, or appends a new key. *)
Fixpoint dict_set {V} (k : string) (v : V) (d : list (string * V)) : list (string * V) :=
  match d with
  | [] => [(k, v)]
  | (k', v') :: d' => if String.eqb k k' then (k, v) :: d' else (k', v') :: dict_set k v d'
  end.

(** python-pptx documents, as far as the code uses them: the slide layouts,
    the slide id list of the presentation part ([sldIdLst], relationship
    ids) and the relationships from those ids to slide parts. *)
Inductive Cell := CNone | CBool (b : bool) | CNum (repr : string) | CStr (s : string).

Inductive Shape :=
| TableShape (rows cols : nat) (cells : list (list string))
| ChartShape (categories : list Cell) (series : list (string * list string)).

Record Slide := mkSlide { slide_title : option string; slide_shapes : list Shape }.
Record Layout := mkLayout { layout_has_title : bool }.

Record Presentation := mkPresentation {
  slide_layouts : list Layout;
  sldIdLst : list string;
  slide_rels : list (string * Slide) }.

(** [prs.slides]: python-pptx looks every [sldId] up in the relationships
    ([rename_slide_parts]); a dangling id raises [KeyError]. *)
Fixpoint slides_of (rels : list (string * Slide)) (ids : list string) : PyExc + list Slide :=
  match ids with
  | [] => inr []
  | rId :: ids' =>
      match dict_get rId rels with
      | None => inl (KeyError rId)
      | Some s => match slides_of rels ids' with inl e => inl e | inr ss => inr (s :: ss) end
      end
  end.

Definition slides (p : Presentation) : PyExc + list Slide := slides_of (slide_rels p) (sldIdLst p).

(** [len(pres.slides)] *)
Definition slide_count (p : Presentation) : PyExc + nat :=
  match slides p with inl e => inl e | inr ss => inr (length ss) end.

(** [pres.slides[0].shapes.title.text] (None when there is no slide or no title). *)
Definition first_slide_title (p : Presentation) : PyExc + option string :=
  match slides p with
  | inl e => inl e
  | inr [] => inr None
  | inr (s :: _) => inr (slide_title s)
  end.

(** openpyxl workbooks: named sheets of rows ([ws.values]) and the active one. *)
Record Workbook := mkWorkbook { wb_sheets : list (string * list (list Cell)); wb_active : string }.

(** External collaborators: python-pptx serialisation, openpyxl loading,
    Python's [float()] on strings, the service's ETag digest and boto3's
    endpoint validation. *)
Record Collaborators := mkCollaborators {
  pptx_save : Presentation -> PyExc + bytes;   (** [presentation.save(buffer)] *)
  pptx_load : bytes -> PyExc + Presentation;   (** [Presentation(buffer)] *)
  load_workbook : bytes -> PyExc + Workbook;   (** [load_workbook(BytesIO(b))] *)
  py_float : string -> option string;          (** [repr(float(s))], None if it raises *)
  md5_hex : bytes -> string;                   (** the object's ETag *)
  endpoint_ok : string -> bool }.              (** botocore accepts the endpoint URL *)

(* ------------------------------------------------------------------ *)
(** ** The S3-compatible service, as seen through boto3 *)

Record S3Object := mkS3Object {
  obj_body : bytes;
  obj_content_type : string;
  obj_metadata : list (string * string);
  obj_last_modified : string;
  obj_etag : string }.

(** The service: accepted key pairs, buckets, objects keyed by
    (bucket, key), and its clock (ISO timestamps). *)
Record Server := mkServer {
  srv_accounts : list (string * string);
  srv_buckets : list string;
  srv_objects : list ((string * string) * S3Object);
  srv_clock : string }.

(** A boto3 client: endpoint, resolved credentials (None when boto3 found
    none) and region. *)
Record S3Client := mkS3Client {
  endpoint_url : string;
  credentials : option (string * string);
  region_name : string }.

Inductive Request :=
| PutObject (bucket key : string) (body : bytes) (content_type : string)
    (metadata : option (list (string * string)))
| HeadObject (bucket key : string)
| GetObject (bucket key : string)
| ListObjectsV2 (bucket : string) (prefix : option string) (max_keys : nat)
| DeleteObject (bucket key : string).

Inductive Response :=
| RPut
| RHead (o : S3Object)
| RGet (body : bytes)
| RList (contents : list (string * S3Object)) (is_truncated : bool)
| RDelete.

Definition op_name (r : Request) : string :=
  match r with
  | PutObject _ _ _ _ _ => "PutObject"
  | HeadObject _ _ => "HeadObject"
  | GetObject _ _ => "GetObject"
  | ListObjectsV2 _ _ _ => "ListObjectsV2"
  | DeleteObject _ _ => "DeleteObject"
  end.

Definition req_bucket (r : Request) : string :=
  match r with
  | PutObject b _ _ _ _ | HeadObject b _ | GetObject b _
  | ListObjectsV2 b _ _ | DeleteObject b _ => b
  end.

Definition is_head (r : Request) : bool :=
  match r with HeadObject _ _ => true | _ => false end.

Definition pair_eqb (a b : string * string) : bool :=
  String.eqb (fst a) (fst b) && String.eqb (snd a) (snd b).

Fixpoint obj_get (bk : string * string) (os : list ((string * string) * S3Object)) : option S3Object :=
  match os with
  | [] => None
  | (bk', o) :: os' => if pair_eqb bk bk' then Some o else obj_get bk os'
  end.

Fixpoint obj_set (bk : string * string) (o : S3Object) (os : list ((string * string) * S3Object))
    : list ((string * string) * S3Object) :=
  match os with
  | [] => [(bk, o)]
  | (bk', o') :: os' => if pair_eqb bk bk' then (bk, o) :: os' else (bk', o') :: obj_set bk o os'
  end.

Definition obj_del (bk : string * string) (os : list ((string * string) * S3Object))
    : list ((string * string) * S3Object) :=
  filter (fun e => negb (pair_eqb bk (fst e))) os.

Fixpoint insert_by_key (e : string * S3Object) (l : list (string * S3Object)) : list (string * S3Object) :=
  match l with
  | [] => [e]
  | e' :: l' =>
      match String.compare (fst e) (fst e') with
      | Gt => e' :: insert_by_key e l'
      | _ => e :: l
      end
  end.

Definition sort_by_key (l : list (string * S3Object)) : list (string * S3Object) :=
  fold_right insert_by_key [] l.

Definition starts_with (pre s : string) : bool := String.prefix pre s.

(** The one-character string made of a double quote. *)
Definition dquote : string := String (Ascii.ascii_of_nat 34) EmptyString.

(** The service's answer to a signed request.  Requests whose key pair
    the service does not know are rejected ([InvalidAccessKeyId]; a HEAD
    response has no body, so its error code is the bare status [403]); a
    missing bucket gives [NoSuchBucket] ([404] for HEAD); a missing key gives
    [NoSuchKey] for GET and [404] for HEAD; deleting a missing key succeeds. *)
Definition s3_service (lib : Collaborators) (creds : string * string) (srv : Server) (r : Request)
    : PyExc + (Response * Server) :=
  let op := op_name r in
  if negb (existsb (pair_eqb creds) (srv_accounts srv)) then
    if is_head r then inl (ClientError "403" "Forbidden" op)
    else inl (ClientError "InvalidAccessKeyId"
                "The AWS Access Key Id you provided does not exist in our records." op)
  else if negb (existsb (String.eqb (req_bucket r)) (srv_buckets srv)) then
    if is_head r then inl (ClientError "404" "Not Found" op)
    else inl (ClientError "NoSuchBucket" "The specified bucket does not exist" op)
  else
    match r with
    | PutObject b k body ct meta =>
        let o := mkS3Object body ct (match meta with Some m => m | None => [] end)
                   (srv_clock srv) (dquote ++ md5_hex lib body ++ dquote) in
        inr (RPut, mkServer (srv_accounts srv) (srv_buckets srv)
                     (obj_set (b, k) o (srv_objects srv)) (srv_clock srv))
    | HeadObject b k =>
        match obj_get (b, k) (srv_objects srv) with
        | Some o => inr (RHead o, srv)
        | None => inl (ClientError "404" "Not Found" op)
        end
    | GetObject b k =>
        match obj_get (b, k) (srv_objects srv) with
        | Some o => inr (RGet (obj_body o), srv)
        | None => inl (ClientError "NoSuchKey" "The specified key does not exist." op)
        end
    | ListObjectsV2 b prefix max_keys =>
        let pre := match prefix with Some p => p | None => "" end in
        let all := sort_by_key
                     (map (fun e => (snd (fst e), snd e))
                        (filter (fun e => String.eqb (fst (fst e)) b
                                          && starts_with pre (snd (fst e)))
                           (srv_objects srv))) in
        inr (RList (firstn max_keys all) (Nat.ltb max_keys (length all)), srv)
    | DeleteObject b k =>
        inr (RDelete, mkServer (srv_accounts srv) (srv_buckets srv)
                        (obj_del (b, k) (srv_objects srv)) (srv_clock srv))
    end.

(* ------------------------------------------------------------------ *)
(** ** The process state and the effect monad *)

(** The process: the service it talks to, the requests sent over the
    network so far, the [presentations] dict and current id shared by the
    tools, the [_s3_clients] registry, and the environment-configured
    client [boto3.client("s3")] of [s3_xlsx_tools]. *)
Record World := mkWorld {
  server : Server;
  net_log : list Request;
  presentations : list (string * Presentation);
  current_presentation_id : option string;
  s3_clients : list (string * S3Client);
  env_client : S3Client }.

Definition set_server (s : Server) (w : World) : World :=
  mkWorld s (net_log w) (presentations w) (current_presentation_id w) (s3_clients w) (env_client w).
Definition log_request (r : Request) (w : World) : World :=
  mkWorld (server w) (net_log w ++ [r]) (presentations w) (current_presentation_id w)
    (s3_clients w) (env_client w).
Definition set_presentations (ps : list (string * Presentation)) (w : World) : World :=
  mkWorld (server w) (net_log w) ps (current_presentation_id w) (s3_clients w) (env_client w).
Definition set_s3_clients (cs : list (string * S3Client)) (w : World) : World :=
  mkWorld (server w) (net_log w) (presentations w) (current_presentation_id w) cs (env_client w).

(** Python statements: state is kept when an exception is raised. *)
Definition M (A : Type) := World -> (PyExc + A) * World.

Definition ret {A} (a : A) : M A := fun w => (inr a, w).
Definition raise {A} (e : PyExc) : M A := fun w => (inl e, w).
Definition bind {A B} (m : M A) (k : A -> M B) : M B :=
  fun w => match m w with
           | (inr a, w') => k a w'
           | (inl e, w') => (inl e, w')
           end.
Definition lift {A} (r : PyExc + A) : M A :=
  fun w => (r, w).
Definition get_world : M World := fun w => (inr w, w).
Definition modify (f : World -> World) : M unit := fun w => (inr tt, f w).

(** [try: m except ...: h]: an exception raised by the handler [h] itself
    is not caught again by the same [try]. *)
Definition try_except {A} (m : M A) (h : PyExc -> M A) : M A :=
  fun w => match m w with
           | (inl e, w') => h e w'
           | r => r
           end.

Notation "x <- m ;; k" := (bind m (fun x => k))
  (at level 61, m at next level, right associativity).
Notation "' p <- m ;; k" := (bind m (fun x => match x with p => k end))
  (at level 61, p pattern, m at next level, right associativity).
Notation "m ;;; k" := (bind m (fun _ => k))
  (at level 61, right associativity).

Section Boto.
Variable lib : Collaborators.

(** A boto3 API call: without credentials botocore raises before sending
    anything; otherwise the request goes over the network. *)
Definition client_call (c : S3Client) (r : Request) : M Response :=
  fun w =>
    match credentials c with
    | None => (inl NoCredentialsError, w)
    | Some cr =>
        let w1 := log_request r w in
        match s3_service lib cr (server w) r with
        | inl e => (inl e, w1)
        | inr (resp, srv') => (inr resp, set_server srv' w1)
        end
    end.

(** [s3_client.download_fileobj(bucket, key, buffer)]: s3transfer first
    asks for the object's size with HEAD, then GETs the body. *)
Definition download_fileobj (c : S3Client) (b k : string) : M bytes :=
  _ <- client_call c (HeadObject b k) ;;
  r <- client_call c (GetObject b k) ;;
  match r with RGet body => ret body | _ => ret [] end.

(** [s3.get_object(Bucket=b, Key=k)["Body"].read()] *)
Definition get_object_bytes (c : S3Client) (b k : string) : M bytes :=
  r <- client_call c (GetObject b k) ;;
  match r with RGet body => ret body | _ => ret [] end.

End Boto.

(** [str(n)] for a natural number. *)
Definition nat_str (n : nat) : string := NilZero.string_of_uint (Nat.to_uint n).

(** [s.strip] of the double-quote character. *)
Fixpoint strip_leading_dquote (s : string) : string :=
  match s with
  | String c rest => if Ascii.eqb c (Ascii.ascii_of_nat 34) then strip_leading_dquote rest else s
  | EmptyString => s
  end.

Fixpoint rev_str (s : string) : string :=
  match s with
  | EmptyString => EmptyString
  | String c rest => rev_str rest ++ String c EmptyString
  end.

Definition strip_dquote (s : string) : string :=
  rev_str (strip_leading_dquote (rev_str (strip_leading_dquote s))).

(* ------------------------------------------------------------------ *)
(** ** [io.BytesIO] *)

Record BytesIO := mkBytesIO { bio_data : bytes; bio_pos : nat }.

Definition bio_new : BytesIO := mkBytesIO [] 0.

(** [buffer.write(b)] at the current position. *)
Definition bio_write (b : bytes) (f : BytesIO) : BytesIO :=
  mkBytesIO (firstn (bio_pos f) (bio_data f) ++ b ++ skipn (bio_pos f + length b) (bio_data f))%list
            (bio_pos f + length b).

(** [buffer.seek(n)] and [buffer.seek(0, io.SEEK_END)] *)
Definition bio_seek (n : nat) (f : BytesIO) : BytesIO := mkBytesIO (bio_data f) n.
Definition bio_seek_end (f : BytesIO) : BytesIO := mkBytesIO (bio_data f) (length (bio_data f)).

(** [buffer.tell()] *)
Definition bio_tell (f : BytesIO) : nat := bio_pos f.

(** [buffer.read()]: what a reader of the buffer gets from the position on. *)
Definition bio_read (f : BytesIO) : bytes := skipn (bio_pos f) (bio_data f).

(* ------------------------------------------------------------------ *)
(** ** utils/s3_utils.py *)

Definition pptx_content_type : string :=
  "application/vnd.openxmlformats-officedocument.presentationml.presentation".

Section S3Utils.
Variable lib : Collaborators.

(** [create_s3_client]; boto3 refuses an invalid endpoint URL. *)
Definition create_s3_client (endpoint_url access_key secret_key : string)
    (region : option string) : PyExc + S3Client :=
  let region := match region with Some r => r | None => "us-east-1" end in
  if endpoint_ok lib endpoint_url then
    inr (mkS3Client endpoint_url (Some (access_key, secret_key)) region)
  else inl (ValueError ("Invalid endpoint: " ++ endpoint_url)).

(** [upload_presentation_to_s3] *)
Definition upload_presentation_to_s3 (presentation : Presentation) (s3_client : S3Client)
    (bucket_name object_key : string) (metadata : option (list (string * string))) : M Dict :=
  try_except
    (let buffer := bio_new in
     data <- lift (pptx_save lib presentation) ;;
     let buffer := bio_seek 0 (bio_write data buffer) in
     let meta := match metadata with Some ((_ :: _) as m) => Some m | _ => None end in
     _ <- client_call lib s3_client
            (PutObject bucket_name object_key (bio_read buffer) pptx_content_type meta) ;;
     let buffer := bio_seek_end buffer in
     let size := bio_tell buffer in
     ret [("success", VBool true); ("bucket", VStr bucket_name); ("key", VStr object_key);
          ("size_bytes", VInt size);
          ("message", VStr ("Successfully uploaded presentation to s3://" ++ bucket_name
                            ++ "/" ++ object_key))])
    (fun e =>
       match e with
       | NoCredentialsError => raise (ValueError "Invalid S3 credentials provided")
       | ClientError code msg _ =>
           raise (GenericException ("S3 upload failed (" ++ code ++ "): " ++ msg))
       | e => raise (GenericException ("Failed to upload presentation to S3: " ++ exc_str e))
       end).

(** [download_presentation_from_s3] *)
Definition download_presentation_from_s3 (s3_client : S3Client) (bucket_name object_key : string)
    : M Presentation :=
  try_except
    (body <- download_fileobj lib s3_client bucket_name object_key ;;
     let buffer := bio_seek 0 (bio_write body bio_new) in
     lift (pptx_load lib (bio_read buffer)))
    (fun e =>
       match e with
       | NoCredentialsError => raise (ValueError "Invalid S3 credentials provided")
       | ClientError code msg _ =>
           if String.eqb code "NoSuchKey" then
             raise (FileNotFoundError ("Object not found: s3://" ++ bucket_name ++ "/" ++ object_key))
           else if String.eqb code "NoSuchBucket" then
             raise (FileNotFoundError ("Bucket not found: " ++ bucket_name))
           else raise (GenericException ("S3 download failed (" ++ code ++ "): " ++ msg))
       | e => raise (GenericException ("Failed to download presentation from S3: " ++ exc_str e))
       end).

(** [list_s3_objects] *)
Definition list_s3_objects (s3_client : S3Client) (bucket_name : string) (prefix : option string)
    (max_keys : nat) : M Dict :=
  try_except
    (let prefix_arg := match prefix with
                       | Some p => if String.eqb p "" then None else Some p
                       | None => None
                       end in
     r <- client_call lib s3_client (ListObjectsV2 bucket_name prefix_arg max_keys) ;;
     let '(contents, truncated) :=
       match r with RList c t => (c, t) | _ => ([], false) end in
     let objects :=
       map (fun e => VDict [("key", VStr (fst e));
                            ("size_bytes", VInt (length (obj_body (snd e))));
                            ("last_modified", VStr (obj_last_modified (snd e)));
                            ("etag", VStr (strip_dquote (obj_etag (snd e))))])
           contents in
     ret [("bucket", VStr bucket_name);
          ("prefix", VStr (match prefix_arg with Some p => p | None => "" end));
          ("object_count", VInt (length objects)); ("objects", VList objects);
          ("is_truncated", VBool truncated)])
    (fun e =>
       match e with
       | ClientError code msg _ =>
           if String.eqb code "NoSuchBucket" then
             raise (FileNotFoundError ("Bucket not found: " ++ bucket_name))
           else raise (GenericException ("S3 list failed (" ++ code ++ "): " ++ msg))
       | e => raise (GenericException ("Failed to list S3 objects: " ++ exc_str e))
       end).

(** [delete_s3_object] *)
Definition delete_s3_object (s3_client : S3Client) (bucket_name object_key : string) : M Dict :=
  try_except
    (_ <- client_call lib s3_client (DeleteObject bucket_name object_key) ;;
     ret [("success", VBool true); ("bucket", VStr bucket_name); ("key", VStr object_key);
          ("message", VStr ("Successfully deleted s3://" ++ bucket_name ++ "/" ++ object_key))])
    (fun e =>
       match e with
       | ClientError code msg _ =>
           raise (GenericException ("S3 delete failed (" ++ code ++ "): " ++ msg))
       | e => raise (GenericException ("Failed to delete S3 object: " ++ exc_str e))
       end).

(** [get_s3_object_metadata] *)
Definition get_s3_object_metadata (s3_client : S3Client) (bucket_name object_key : string) : M Dict :=
  try_except
    (r <- client_call lib s3_client (HeadObject bucket_name object_key) ;;
     match r with
     | RHead o =>
         ret [("bucket", VStr bucket_name); ("key", VStr object_key);
              ("size_bytes", VInt (length (obj_body o)));
              ("last_modified", VStr (obj_last_modified o));
              ("content_type", VStr (obj_content_type o));
              ("etag", VStr (strip_dquote (obj_etag o)));
              ("metadata", VDict (map (fun kv => (fst kv, VStr (snd kv))) (obj_metadata o)))]
     | _ => ret []
     end)
    (fun e =>
       match e with
       | ClientError code msg _ =>
           if String.eqb code "404" || String.eqb code "NoSuchKey" then
             raise (FileNotFoundError ("Object not found: s3://" ++ bucket_name ++ "/" ++ object_key))
           else raise (GenericException ("S3 head object failed (" ++ code ++ "): " ++ msg))
       | e => raise (GenericException ("Failed to get S3 object metadata: " ++ exc_str e))
       end).

End S3Utils.

(* ------------------------------------------------------------------ *)
(** ** tools/s3_tools.py: the tools of [register_s3_tools] *)

Section S3Tools.
Variable lib : Collaborators.

Definition error_dict (msg : string) : Dict := [("error", VStr msg)].

Definition not_configured_error (connection_name : string) : Dict :=
  error_dict ("S3 connection '" ++ connection_name
              ++ "' not found. Please configure it first using configure_s3_connection.").

Definition configure_s3_connection (connection_name endpoint_url access_key secret_key : string)
    (region : option string) : M Dict :=
  try_except
    (s3_client <- lift (create_s3_client lib endpoint_url access_key secret_key region) ;;
     w <- get_world ;;
     modify (set_s3_clients (dict_set connection_name s3_client (s3_clients w))) ;;;
     ret [("success", VBool true); ("connection_name", VStr connection_name);
          ("endpoint_url", VStr endpoint_url);
          ("region", VStr (match region with Some r => if String.eqb r "" then "us-east-1" else r
                                            | None => "us-east-1" end));
          ("message", VStr ("S3 connection '" ++ connection_name ++ "' configured successfully"))])
    (fun e => ret (error_dict ("Failed to configure S3 connection: " ++ exc_str e))).

Definition no_presentation_error : Dict :=
  error_dict "No presentation is currently loaded or the specified ID is invalid".

Definition tool_upload_presentation_to_s3 (bucket_name object_key connection_name : string)
    (presentation_id : option string) (metadata : option (list (string * string))) : M Dict :=
  w <- get_world ;;
  match dict_get connection_name (s3_clients w) with
  | None => ret (not_configured_error connection_name)
  | Some s3_client =>
      let pres_id := match presentation_id with
                     | Some p => Some p
                     | None => current_presentation_id w
                     end in
      match pres_id with
      | None => ret no_presentation_error
      | Some pid =>
          match dict_get pid (presentations w) with
          | None => ret no_presentation_error
          | Some pres =>
              try_except
                (result <- upload_presentation_to_s3 lib pres s3_client bucket_name object_key metadata ;;
                 let result := dict_set "presentation_id" (VStr pid) result in
                 let result := dict_set "connection_name" (VStr connection_name) result in
                 ret result)
                (fun e => ret (error_dict ("Failed to upload presentation: " ++ exc_str e)))
          end
      end
  end.

Definition tool_download_presentation_from_s3 (bucket_name object_key connection_name : string)
    (id : option string) : M Dict :=
  w <- get_world ;;
  match dict_get connection_name (s3_clients w) with
  | None => ret (not_configured_error connection_name)
  | Some s3_client =>
      try_except
        (pres <- download_presentation_from_s3 lib s3_client bucket_name object_key ;;
         w1 <- get_world ;;
         let id := match id with
                   | Some i => i
                   | None => "presentation_" ++ nat_str (length (presentations w1) + 1)
                   end in
         modify (set_presentations (dict_set id pres (presentations w1))) ;;;
         n <- lift (slide_count pres) ;;
         ret [("success", VBool true); ("presentation_id", VStr id);
              ("bucket", VStr bucket_name); ("key", VStr object_key);
              ("connection_name", VStr connection_name); ("slide_count", VInt n);
              ("message", VStr ("Successfully downloaded presentation from s3://"
                                ++ bucket_name ++ "/" ++ object_key))])
        (fun e =>
           match e with
           | FileNotFoundError _ => ret (error_dict (exc_str e))
           | _ => ret (error_dict ("Failed to download presentation: " ++ exc_str e))
           end)
  end.

Definition list_s3_presentations (bucket_name connection_name : string) (prefix : option string)
    (max_keys : nat) : M Dict :=
  w <- get_world ;;
  match dict_get connection_name (s3_clients w) with
  | None => ret (not_configured_error connection_name)
  | Some s3_client =>
      try_except
        (result <- list_s3_objects lib s3_client bucket_name prefix max_keys ;;
         ret (dict_set "connection_name" (VStr connection_name) result))
        (fun e => ret (error_dict ("Failed to list S3 objects: " ++ exc_str e)))
  end.

Definition delete_s3_presentation (bucket_name object_key connection_name : string) : M Dict :=
  w <- get_world ;;
  match dict_get connection_name (s3_clients w) with
  | None => ret (not_configured_error connection_name)
  | Some s3_client =>
      try_except
        (result <- delete_s3_object lib s3_client bucket_name object_key ;;
         ret (dict_set "connection_name" (VStr connection_name) result))
        (fun e => ret (error_dict ("Failed to delete S3 object: " ++ exc_str e)))
  end.

Definition get_s3_presentation_info (bucket_name object_key connection_name : string) : M Dict :=
  w <- get_world ;;
  match dict_get connection_name (s3_clients w) with
  | None => ret (not_configured_error connection_name)
  | Some s3_client =>
      try_except
        (result <- get_s3_object_metadata lib s3_client bucket_name object_key ;;
         ret (dict_set "connection_name" (VStr connection_name) result))
        (fun e =>
           match e with
           | FileNotFoundError _ => ret (error_dict (exc_str e))
           | _ => ret (error_dict ("Failed to get S3 object metadata: " ++ exc_str e))
           end)
  end.

Definition list_s3_connections : M Dict :=
  w <- get_world ;;
  ret [("connections", VList (map (fun e => VStr (fst e)) (s3_clients w)));
       ("count", VInt (length (s3_clients w)))].

End S3Tools.

(* ------------------------------------------------------------------ *)
(** ** tools/s3_xlsx_tools.py: [build_slides_from_s3_xlsx] *)

Section XlsxTool.
Variable lib : Collaborators.

(** [str(v)] of a cell value. *)
Definition cell_str (v : Cell) : string :=
  match v with
  | CNone => "None"
  | CBool true => "True"
  | CBool false => "False"
  | CNum r => r
  | CStr s => s
  end.

(** [_numlike(v)]: whether [float(v)] succeeds. *)
Definition numlike (v : Cell) : bool :=
  match v with
  | CNone => false
  | CBool _ | CNum _ => true
  | CStr s => match py_float lib s with Some _ => true | None => false end
  end.

(** [float(v) if v is not None else 0.0], [0.0] when [float] raises. *)
Definition chart_value (v : option Cell) : string :=
  match v with
  | None | Some CNone => "0.0"
  | Some (CBool true) => "1.0"
  | Some (CBool false) => "0.0"
  | Some (CNum r) | Some (CStr r) =>
      match py_float lib r with Some f => f | None => "0.0" end
  end.

Definition py_index {A} (l : list A) (i : nat) : PyExc + A :=
  match nth_error l i with
  | Some x => inr x
  | None => inl (IndexError "list index out of range")
  end.

(** [wb[sheet] if sheet else wb.active] *)
Definition select_sheet (wb : Workbook) (sheet : option string) : PyExc + list (list Cell) :=
  let nm := match sheet with
            | Some s => if String.eqb s "" then wb_active wb else s
            | None => wb_active wb
            end in
  match dict_get nm (wb_sheets wb) with
  | Some rows => inr rows
  | None => inl (KeyError ("Worksheet " ++ nm ++ " does not exist."))
  end.

(** [{h: r[i] for i, h in enumerate(header)}] *)
Fixpoint record_of (header : list string) (r : list Cell) (i : nat) (acc : list (string * Cell))
    : PyExc + list (string * Cell) :=
  match header with
  | [] => inr acc
  | h :: hs =>
      match py_index r i with
      | inl e => inl e
      | inr v => record_of hs r (S i) (dict_set h v acc)
      end
  end.

Fixpoint records_of (header : list string) (body : list (list Cell))
    : PyExc + list (list (string * Cell)) :=
  match body with
  | [] => inr []
  | r :: rs =>
      match record_of header r 0 [], records_of header rs with
      | inl e, _ | _, inl e => inl e
      | inr x, inr xs => inr (x :: xs)
      end
  end.

(** The inferred [y_cols]: header columns other than [x_col] with a numeric
    value among the first eight records, else [header[1:2]]. *)
Definition infer_y_cols (header : list string) (x_col : string)
    (records : list (list (string * Cell))) : list string :=
  match filter (fun c => negb (String.eqb c x_col)
                         && existsb (fun rec => numlike (match dict_get c rec with
                                                         | Some v => v | None => CNone end))
                                    (firstn 8 records)) header with
  | [] => firstn 1 (skipn 1 header)
  | ys => ys
  end.

(** The first relationship id [rIdN] not yet used by the presentation. *)
Fixpoint fresh_rId_from (rels : list (string * Slide)) (n fuel : nat) : string :=
  match fuel with
  | 0 => "rId" ++ nat_str n
  | S fuel' =>
      if dict_mem ("rId" ++ nat_str n) rels then fresh_rId_from rels (S n) fuel'
      else "rId" ++ nat_str n
  end.

(** [prs.slides.add_slide(prs.slide_layouts[5])]; returns the new slide's id. *)
Definition add_slide_layout5 (p : Presentation) : PyExc + (Presentation * string) :=
  match nth_error (slide_layouts p) 5 with
  | None => inl (IndexError "slide layout index out of range")
  | Some layout =>
      let rId := fresh_rId_from (slide_rels p) 1 (S (length (slide_rels p))) in
      let s := mkSlide (if layout_has_title layout then Some "" else None) [] in
      inr (mkPresentation (slide_layouts p) (sldIdLst p ++ [rId]) (slide_rels p ++ [(rId, s)]),
           rId)
  end.

(** [slide.shapes.title.text = t]: [AttributeError] when the slide has no title placeholder. *)
Definition set_title (rId t : string) (p : Presentation) : PyExc + Presentation :=
  match dict_get rId (slide_rels p) with
  | Some (mkSlide (Some _) shapes) =>
      inr (mkPresentation (slide_layouts p) (sldIdLst p)
             (dict_set rId (mkSlide (Some t) shapes) (slide_rels p)))
  | _ => inl (AttributeError "'NoneType' object has no attribute 'text'")
  end.

Definition add_shape (rId : string) (sh : Shape) (p : Presentation) : Presentation :=
  match dict_get rId (slide_rels p) with
  | Some (mkSlide t shapes) =>
      mkPresentation (slide_layouts p) (sldIdLst p)
        (dict_set rId (mkSlide t (shapes ++ [sh])) (slide_rels p))
  | None => p
  end.

(** Writes a mutated presentation object back: the registry holds the
    object by reference, so every mutation is visible there at once. *)
Definition store_pres (pid : string) (p : Presentation) : M unit :=
  w <- get_world ;;
  modify (set_presentations (dict_set pid p (presentations w))).

Definition build_slides_from_s3_xlsx (bucket key : string) (sheet x_col : option string)
    (y_cols : option (list string)) (add_table : bool) (title : string) : M Dict :=
  w <- get_world ;;
  xlsx_bytes <- get_object_bytes lib (env_client w) bucket key ;;
  wb <- lift (load_workbook lib xlsx_bytes) ;;
  rows <- lift (select_sheet wb sheet) ;;
  row0 <- lift (py_index rows 0) ;;
  let header := map cell_str row0 in
  let body := skipn 1 rows in
  records <- lift (records_of header body) ;;
  x_col <- match x_col with
           | Some x => if String.eqb x "" then lift (py_index header 0) else ret x
           | None => lift (py_index header 0)
           end ;;
  let y_cols := match y_cols with
                | Some ((_ :: _) as ys) => ys
                | _ => infer_y_cols header x_col records
                end in
  w2 <- get_world ;;
  match current_presentation_id w2 with
  | None => ret (error_dict "No presentation loaded. Create or open one first.")
  | Some pres_id =>
      match dict_get pres_id (presentations w2) with
      | None => ret (error_dict "No presentation loaded. Create or open one first.")
      | Some prs =>
          prs <- (if add_table then
                    '(prs, rId) <- lift (add_slide_layout5 prs) ;;
                    store_pres pres_id prs ;;;
                    prs <- lift (set_title rId (title ++ "（表）") prs) ;;
                    store_pres pres_id prs ;;;
                    let n_rows := Nat.min (length records + 1) 20 in
                    let n_cols := Nat.min (length header) 10 in
                    let cols := firstn n_cols header in
                    let cells :=
                      cols :: map (fun rec => map (fun col => match dict_get col rec with
                                                               | Some v => cell_str v
                                                               | None => ""
                                                               end) cols)
                                  (firstn (n_rows - 1) records) in
                    let prs := add_shape rId (TableShape n_rows n_cols cells) prs in
                    store_pres pres_id prs ;;;
                    ret prs
                  else ret prs) ;;
          '(prs, rId) <- lift (add_slide_layout5 prs) ;;
          store_pres pres_id prs ;;;
          prs <- lift (set_title rId (title ++ "（グラフ）") prs) ;;
          store_pres pres_id prs ;;;
          let categories := map (fun rec => match dict_get x_col rec with
                                            | Some v => v | None => CStr "" end) records in
          let series := map (fun yc => (yc, map (fun rec => chart_value (dict_get yc rec)) records))
                            y_cols in
          store_pres pres_id (add_shape rId (ChartShape categories series) prs) ;;;
          ret [("presentation_id", VStr pres_id); ("rows", VInt (length records));
               ("x_col", VStr x_col); ("y_cols", VList (map VStr y_cols))]
      end
  end.

End XlsxTool.

(* ------------------------------------------------------------------ *)
(** ** Concrete scenarios *)

Module Scenario.

(** A two-slide deck as built by [test_s3.py], and a deck whose slide id
    list names a relationship the package does not have. *)
Definition title_layout : Layout := mkLayout true.

Definition deck : Presentation :=
  mkPresentation (repeat title_layout 11) ["rId2"; "rId3"]
    [("rId2", mkSlide (Some "S3 Storage Test") []); ("rId3", mkSlide (Some "Test Content") [])].

Definition dangling_deck : Presentation :=
  mkPresentation (repeat title_layout 11) ["rId2"; "rId9"]
    [("rId2", mkSlide (Some "S3 Storage Test") [])].

(** A stand-in for the libraries: [deck] saves to one byte and loads back,
    a second byte loads [dangling_deck], anything else is not a zip file. *)
Definition toy_load (b : bytes) : PyExc + Presentation :=
  match b with
  | [Byte.x01] => inr deck
  | [Byte.x02] => inr dangling_deck
  | _ => inl (GenericException "File is not a zip file")
  end.

Definition toy_lib : Collaborators :=
  mkCollaborators (fun _ => inr [Byte.x01]) toy_load
    (fun _ => inl (GenericException "File is not a zip file"))
    (fun _ => None) (fun _ => "d41d8cd98f00b204e9800998ecf8427e") (fun _ => true).

Definition minio : Server :=
  mkServer [("minioadmin", "minioadmin")] ["test-bucket-powerpoint"]
    [(("test-bucket-powerpoint", "broken.pptx"),
      mkS3Object [Byte.x02] pptx_content_type [] "2025-01-01T00:00:00+00:00" "abc")]
    "2025-01-01T00:00:00+00:00".

Definition good_client : S3Client :=
  mkS3Client "http://localhost:9000" (Some ("minioadmin", "minioadmin")) "us-east-1".

Definition bad_key_client : S3Client :=
  mkS3Client "http://localhost:9000" (Some ("AKIAWRONG", "wrong-secret")) "us-east-1".

(** A client for which boto3 found no credentials at all. *)
Definition no_cred_client : S3Client :=
  mkS3Client "http://localhost:9000" None "us-east-1".

Definition world0 : World :=
  mkWorld minio [] [] None [("default", good_client)] good_client.

(** The result of uploading [deck] to [test-bucket-powerpoint/deck.pptx]. *)
Definition deck_upload_result : Dict :=
  [("success", VBool true); ("bucket", VStr "test-bucket-powerpoint"); ("key", VStr "deck.pptx");
   ("size_bytes", VInt 1);
   ("message", VStr "Successfully uploaded presentation to s3://test-bucket-powerpoint/deck.pptx")].

End Scenario.

(* ------------------------------------------------------------------ *)
(** ** utils/core_utils.py: [try_multiple_approaches] and [safe_operation] *)

(** The loop of [try_multiple_approaches], unrolled: [approach_func()] is a
    call of an arbitrary function, a statement of the effect monad; the
    rest of the loop runs after the [except] clause has recorded the
    message. *)
Fixpoint try_approaches_from {A} (operation_name : string) (approaches : list (M A * string))
    (error_messages : list string) : M (option A * option string) :=
  match approaches with
  | [] =>
      ret (None, Some ("Failed to " ++ operation_name ++ " after trying multiple approaches: "
                       ++ String.concat "; " error_messages))
  | (approach_func, description) :: rest =>
      try_except
        (result <- approach_func ;; ret (Some result, None))
        (fun e =>
           let msg := description ++ ": " ++ exc_str e in
           try_approaches_from operation_name rest (app error_messages [msg]))
  end.

(** [try_multiple_approaches(operation_name, approaches)] *)
Definition try_multiple_approaches {A} (operation_name : string) (approaches : list (M A * string))
    : M (option A * option string) :=
  try_approaches_from operation_name approaches [].

(** [error_message or default] *)
Definition or_default (error_message : option string) (default : string) : string :=
  match error_message with
  | Some m => if String.eqb m "" then default else m
  | None => default
  end.

(** [safe_operation]: the call of [operation_func] on the extra
    arguments is the statement [operation_func]. *)
Definition safe_operation {A} (operation_name : string) (operation_func : M A)
    (error_message : option string) : M (option A * option string) :=
  try_except
    (result <- operation_func ;; ret (Some result, None))
    (fun e =>
       match e with
       | ValueError _ =>
           ret (None, Some (or_default error_message
                              ("Invalid input for " ++ operation_name ++ ": " ++ exc_str e)))
       | TypeError _ =>
           ret (None, Some (or_default error_message
                              ("Type error in " ++ operation_name ++ ": " ++ exc_str e)))
       | _ =>
           ret (None, Some (or_default error_message
                              ("Failed to execute " ++ operation_name ++ ": " ++ exc_str e)))
       end).

(* ------------------------------------------------------------------ *)
(** ** utils/presentation_utils.py: [create_presentation_from_template] *)

(** [str.lower] on the ASCII letters.  The suffixes compared below are
    ASCII, and no character outside ASCII lower-cases to one of their
    letters, so the test is the same as Python's. *)
Definition ascii_lower (c : ascii) : ascii :=
  let n := Ascii.nat_of_ascii c in
  if Nat.leb 65 n && Nat.leb n 90 then Ascii.ascii_of_nat (n + 32) else c.

Fixpoint str_lower (s : string) : string :=
  match s with
  | EmptyString => EmptyString
  | String c rest => String (ascii_lower c) (str_lower rest)
  end.

(** [s.endswith(suffix)] *)
Definition ends_with (suffix s : string) : bool := String.prefix (rev_str suffix) (rev_str s).

Section Template.

(** [os.path.exists] on the filesystem, and [Presentation(path)]
    ([open_presentation]). *)
Variable path_exists : string -> bool.
Variable open_presentation : string -> PyExc + Presentation.

Definition create_presentation_from_template (template_path : string) : PyExc + Presentation :=
  if negb (path_exists template_path) then
    inl (FileNotFoundError ("Template file not found: " ++ template_path))
  else if negb (ends_with ".pptx" (str_lower template_path)
                || ends_with ".potx" (str_lower template_path)) then
    inl (ValueError "Template file must be a .pptx or .potx file")
  else
    match open_presentation template_path with
    | inr presentation => inr presentation
    | inl e => inl (GenericException ("Failed to load template file '" ++ template_path
                                      ++ "': " ++ exc_str e))
    end.

End Template.

(* ------------------------------------------------------------------ *)
(** ** Frames: what a statement leaves alone *)

(** [m] never changes the part [proj] of the process state, whether it
    returns or raises. *)
Definition keeps {X A} (proj : World -> X) (m : M A) : Prop :=
  forall w, proj (snd (m w)) = proj w.

(** Every value [m] returns satisfies [P]. *)
Definition post {A} (P : A -> Prop) (m : M A) : Prop :=
  forall w a w', m w = (inr a, w') -> P a.

(** A dict without an [error] entry. *)
Definition no_error_entry (d : Dict) : Prop := dict_get "error" d = None.

(** The result of a tool: either exactly the error dict of a message, or
    a dict without an [error] entry. *)
Definition tool_result (d : Dict) : Prop :=
  (exists msg, d = error_dict msg) \/ dict_get "error" d = None.


Module Scenario2.
Import Scenario.

(** A workbook loader for the sales sheet of the examples, and [float()]
    on the two numbers it holds. *)
Definition sales_book : Workbook :=
  mkWorkbook [("Sheet1", [[CStr "month"; CStr "sales"]; [CStr "Jan"; CNum "10"];
                          [CStr "Feb"; CNum "20"]])] "Sheet1".

Definition xlsx_lib : Collaborators :=
  mkCollaborators (fun _ => inr [Byte.x01]) toy_load (fun _ => inr sales_book)
    (fun s => if String.eqb s "10" then Some "10.0"
              else if String.eqb s "20" then Some "20.0" else None)
    (fun _ => "d41d8cd98f00b204e9800998ecf8427e") (fun _ => true).

Definition minio2 : Server :=
  mkServer [("minioadmin", "minioadmin")] ["test-bucket-powerpoint"]
    [(("test-bucket-powerpoint", "deck.pptx"),
      mkS3Object [Byte.x01] pptx_content_type [] "2025-01-01T00:00:00+00:00" "abc");
     (("test-bucket-powerpoint", "reports/q1.pptx"),
      mkS3Object [Byte.x01] pptx_content_type [] "2025-01-01T00:00:00+00:00" "abd");
     (("test-bucket-powerpoint", "reports/q2.pptx"),
      mkS3Object [Byte.x01] pptx_content_type [] "2025-01-01T00:00:00+00:00" "abe");
     (("test-bucket-powerpoint", "sales.xlsx"),
      mkS3Object [Byte.x03] "application/octet-stream" [] "2025-01-01T00:00:00+00:00" "abf")]
    "2025-01-01T00:00:00+00:00".

(** No presentation open. *)
Definition world_empty : World :=
  mkWorld minio2 [] [] None [("default", good_client)] good_client.

(** One presentation open, registered under [presentation_1]. *)
Definition world_open : World :=
  mkWorld minio2 [] [("presentation_1", deck)] (Some "presentation_1")
    [("default", good_client)] good_client.

(** A registry of one entry named [presentation_2]. *)
Definition world_gap : World :=
  mkWorld minio2 [] [("presentation_2", dangling_deck)] None [("default", good_client)] good_client.

End Scenario2.

(* ================================================================== *)
(** * Properties *)

(* ------------------------------------------------------------------ *)
(** ** Path lemmas *)

Lemma str_app_assoc (a b c : string) : (a ++ b) ++ c = a ++ (b ++ c).
Proof. induction a as [|x a IH]; simpl; [reflexivity | now rewrite IH]. Qed.

Lemma str_app_nil_r (a : string) : a ++ "" = a.
Proof. induction a as [|x a IH]; simpl; [reflexivity | now rewrite IH]. Qed.

Lemma is_prefix_app (b x : list string) : is_prefix b (b ++ x) = true.
Proof.
  induction b as [|p b IH]; simpl; [reflexivity|].
  now rewrite String.eqb_refl, IH.
Qed.

Lemma is_prefix_refl (b : list string) : is_prefix b b = true.
Proof. rewrite <- (app_nil_r b) at 2. apply is_prefix_app. Qed.

Lemma has_slash_app (a b : string) : has_slash (a ++ b) = has_slash a || has_slash b.
Proof.
  induction a as [|c a IH]; simpl; [reflexivity|].
  now rewrite IH, orb_assoc.
Qed.

Lemma split_slash_aux_no_slash (s cur : string) :
  has_slash cur = false -> Forall (fun p => has_slash p = false) (split_slash_aux s cur).
Proof.
  revert cur; induction s as [|c s IH]; intros cur Hcur; simpl.
  - now constructor.
  - destruct (Ascii.eqb c "/"%char) eqn:Hc.
    + constructor; [assumption | apply IH; reflexivity].
    + apply IH. rewrite has_slash_app. simpl. now rewrite Hcur, Hc.
Qed.

Lemma split_slash_aux_plain (s cur : string) :
  has_slash s = false -> split_slash_aux s cur = [cur ++ s].
Proof.
  revert cur; induction s as [|c s IH]; intros cur Hs; simpl in *.
  - now rewrite str_app_nil_r.
  - apply orb_false_iff in Hs as [Hc Hs]. rewrite Hc, IH by assumption.
    now rewrite str_app_assoc.
Qed.

Lemma parts_parse_plain (s : string) :
  Forall (fun p => has_slash p = false /\ p <> "" /\ p <> ".") (parts (parse s)).
Proof.
  unfold parse; simpl.
  pose proof (split_slash_aux_no_slash s "" eq_refl) as H.
  unfold split_slash. induction H as [|p l Hp Hl IH]; simpl; [constructor|].
  destruct (String.eqb p "") eqn:E1, (String.eqb p ".") eqn:E2; simpl; try assumption.
  constructor; [|assumption].
  apply String.eqb_neq in E1, E2. auto.
Qed.

Lemma last_In (l : list string) : last l "" <> "" -> In (last l "") l.
Proof.
  induction l as [|x l IH]; simpl; intros H; [congruence|].
  destruct l as [|y l]; [now left|]. right. now apply IH.
Qed.

(** The final part of a parsed path parses back to itself. *)
Lemma parse_name (s : string) :
  name (parse s) <> "" -> parse (name (parse s)) = mkPath false [name (parse s)].
Proof.
  intros Hn. pose proof (parts_parse_plain s) as Hall.
  rewrite Forall_forall in Hall.
  destruct (Hall _ (last_In _ Hn)) as (Hsl & Hne & Hdot).
  change (last (parts (parse s)) "") with (name (parse s)) in Hsl, Hne, Hdot.
  revert Hsl Hne Hdot. generalize (name (parse s)). intros n Hsl Hne Hdot.
  assert (Hstart : starts_with_slash n = false).
  { destruct n as [|c r]; [reflexivity|]. simpl in *.
    now apply orb_false_iff in Hsl as [Hc _]. }
  unfold parse. rewrite Hstart. unfold split_slash.
  rewrite split_slash_aux_plain by assumption. simpl.
  apply String.eqb_neq in Hne, Hdot. now rewrite Hne, Hdot.
Qed.

(* ------------------------------------------------------------------ *)
(** ** Path sanitisation *)

(** C1: outside the [allow_absolute] escape hatch for absolute inputs,
    when the canonical resolution of the input against the base directory
    (the joined path, canonicalised first) is not the base directory or
    below it, [sanitize_path] raises [ValueError] with the traversal
    message, and that message contains the offending input and the
    canonical base directory. *)
Theorem sanitize_path_rejects_traversal (realpath : list string -> list string)
    (cwd : list string) (file_path : string) (base_dir : option string) (allow_absolute : bool) :
  (allow_absolute = false \/ is_absolute (parse file_path) = false) ->
  let base_path := base_path_of realpath cwd base_dir in
  let resolved := resolved_path_of realpath cwd file_path base_path in
  is_prefix base_path resolved = false ->
  sanitize_path realpath cwd file_path base_dir allow_absolute
    = inl (ValueError (traversal_message file_path resolved base_path))
  /\ exists pre mid post,
       traversal_message file_path resolved base_path
       = pre ++ file_path ++ mid ++ abs_str base_path ++ post.
Proof.
  intros Hallow base_path resolved Hout. split.
  - unfold sanitize_path. fold base_path. fold resolved.
    assert (Hgate : allow_absolute && is_absolute (parse file_path) = false).
    { destruct Hallow as [-> | ->]; [reflexivity | apply andb_false_r]. }
    now rewrite Hgate, Hout.
  - exists "Path traversal detected: '",
      ("' resolves to '" ++ abs_str resolved ++ "' which is outside the allowed directory '"),
      "'".
    unfold traversal_message. now rewrite !str_app_assoc.
Qed.

(** C2 (as amended): for an absolute input with [allow_absolute] false,
    [sanitize_path] keeps only the final segment and resolves it under the
    base directory; it returns that canonical path when it lies within the
    base directory and raises the traversal error otherwise.  When the
    final segment is a name the canonicalisation leaves in place, the
    result is base_dir/name. *)
Theorem sanitize_path_absolute_rerooted (realpath : list string -> list string)
    (cwd : list string) (file_path : string) (base_dir : option string) :
  is_absolute (parse file_path) = true ->
  let base_path := base_path_of realpath cwd base_dir in
  let n := name (parse file_path) in
  let resolved := realpath (base_path ++ parts (parse n))%list in
  sanitize_path realpath cwd file_path base_dir false
    = (if is_prefix base_path resolved then inr (abs_str resolved)
       else inl (ValueError (traversal_message file_path resolved base_path)))
  /\ (n <> "" -> realpath (base_path ++ [n])%list = (base_path ++ [n])%list ->
      sanitize_path realpath cwd file_path base_dir false = inr (abs_str (base_path ++ [n])%list)).
Proof.
  intros Habs base_path n resolved.
  assert (Heq : sanitize_path realpath cwd file_path base_dir false
                = (if is_prefix base_path resolved then inr (abs_str resolved)
                   else inl (ValueError (traversal_message file_path resolved base_path)))).
  { unfold sanitize_path, resolved_path_of. cbv zeta. fold base_path.
    rewrite Habs. simpl andb. cbv iota. unfold join. fold n.
    destruct (root (parse n)) eqn:Hr.
    - (* a final segment never carries a root *)
      destruct (String.eqb n "") eqn:En.
      + apply String.eqb_eq in En. unfold n in *. rewrite En in Hr. discriminate.
      + apply String.eqb_neq in En. unfold n in Hr. rewrite parse_name in Hr by assumption.
        discriminate.
    - reflexivity. }
  split; [exact Heq|].
  intros Hn Hfix. rewrite Heq. unfold resolved, n.
  rewrite parse_name by assumption. simpl. fold n. rewrite Hfix, is_prefix_app. reflexivity.
Qed.

(** C3: the empty input, with the default base directory and
    [allow_absolute] false, resolves to the canonical base directory
    itself (canonicalisation being idempotent on it). *)
Theorem sanitize_path_empty_is_base (realpath : list string -> list string) (cwd : list string) :
  realpath (realpath cwd) = realpath cwd ->
  sanitize_path realpath cwd "" None false = inr (abs_str (realpath cwd)).
Proof.
  intros Hidem. unfold sanitize_path, resolved_path_of, base_path_of, resolve. simpl.
  rewrite app_nil_r, Hidem, is_prefix_refl. reflexivity.
Qed.

(* ------------------------------------------------------------------ *)
(** ** Transfer lemmas *)

Lemma pair_eqb_refl (p : string * string) : pair_eqb p p = true.
Proof. destruct p; unfold pair_eqb; simpl; now rewrite !String.eqb_refl. Qed.

Lemma obj_get_set_same (bk : string * string) (o : S3Object) os :
  obj_get bk (obj_set bk o os) = Some o.
Proof.
  induction os as [|[bk' o'] os IH]; simpl.
  - now rewrite pair_eqb_refl.
  - destruct (pair_eqb bk bk') eqn:E; simpl.
    + now rewrite pair_eqb_refl.
    + now rewrite E.
Qed.

Lemma bio_roundtrip (data : bytes) :
  bio_read (bio_seek 0 (bio_write data bio_new)) = data
  /\ bio_tell (bio_seek_end (bio_seek 0 (bio_write data bio_new))) = length data.
Proof.
  unfold bio_read, bio_seek, bio_write, bio_tell, bio_seek_end, bio_new; simpl.
  rewrite skipn_nil, app_nil_r. split; reflexivity.
Qed.

(** A successful PutObject: the key pair and the bucket were accepted, and
    the object now holds exactly the body sent. *)
Lemma s3_service_put_ok lib cr srv b k body ct meta resp srv' :
  s3_service lib cr srv (PutObject b k body ct meta) = inr (resp, srv') ->
  existsb (pair_eqb cr) (srv_accounts srv') = true
  /\ existsb (String.eqb b) (srv_buckets srv') = true
  /\ exists o, obj_get (b, k) (srv_objects srv') = Some o /\ obj_body o = body.
Proof.
  unfold s3_service; simpl.
  destruct (existsb (pair_eqb cr) (srv_accounts srv)) eqn:Ha; simpl; [|discriminate].
  destruct (existsb (String.eqb b) (srv_buckets srv)) eqn:Hb; simpl; [|discriminate].
  intros H; inversion H; subst; simpl.
  repeat split; try assumption.
  eexists; split; [apply obj_get_set_same | reflexivity].
Qed.

(** [download_fileobj] of an existing object with accepted credentials
    delivers its body. *)
Lemma download_fileobj_existing lib c cr b k w o :
  credentials c = Some cr ->
  existsb (pair_eqb cr) (srv_accounts (server w)) = true ->
  existsb (String.eqb b) (srv_buckets (server w)) = true ->
  obj_get (b, k) (srv_objects (server w)) = Some o ->
  exists w', download_fileobj lib c b k w = (inr (obj_body o), w').
Proof.
  intros Hc Ha Hb Ho.
  unfold download_fileobj, bind, client_call, ret. rewrite Hc.
  unfold s3_service at 1; simpl. rewrite Ha, Hb, Ho. simpl.
  unfold s3_service; simpl. rewrite Ha, Hb, Ho. simpl.
  eexists; reflexivity.
Qed.

(** What a successful [upload_presentation_to_s3] did: the document was
    serialised to [data], the service accepted the credentials and the
    bucket, the object holds [data], and [size_bytes] is its length. *)
Lemma upload_success_inv lib d c bucket key metadata w res w1 :
  upload_presentation_to_s3 lib d c bucket key metadata w = (inr res, w1) ->
  exists data cr,
    pptx_save lib d = inr data
    /\ credentials c = Some cr
    /\ existsb (pair_eqb cr) (srv_accounts (server w1)) = true
    /\ existsb (String.eqb bucket) (srv_buckets (server w1)) = true
    /\ (exists o, obj_get (bucket, key) (srv_objects (server w1)) = Some o /\ obj_body o = data)
    /\ res = [("success", VBool true); ("bucket", VStr bucket); ("key", VStr key);
              ("size_bytes", VInt (length data));
              ("message", VStr ("Successfully uploaded presentation to s3://" ++ bucket
                                ++ "/" ++ key))].
Proof.
  unfold upload_presentation_to_s3, try_except, bind, lift, ret, raise.
  destruct (pptx_save lib d) as [e|data] eqn:Hs.
  { destruct e; simpl; discriminate. }
  unfold client_call. destruct (credentials c) as [cr|] eqn:Hc; simpl.
  2: discriminate.
  destruct (bio_roundtrip data) as [Hread Htell].
  rewrite Hread.
  destruct (s3_service lib cr (server w) _) as [e|[resp srv']] eqn:Hsrv.
  { destruct e; simpl; discriminate. }
  intros H. inversion H; subst; clear H.
  apply s3_service_put_ok in Hsrv as (Ha & Hb & Ho).
  exists data, cr. simpl. repeat split; try assumption.
  simpl in Htell. now rewrite Htell.
Qed.

(* ------------------------------------------------------------------ *)
(** ** Transfer *)

(** C4: after a successful upload of a document, downloading the same
    bucket/key yields a document with the same slide count and the same
    first-slide title, for every document the library round-trips through
    its serialisation. *)
Theorem upload_download_roundtrip (lib : Collaborators) (d : Presentation) (c : S3Client)
    (bucket key : string) (metadata : option (list (string * string))) (w w1 : World) (res : Dict) :
  (forall data, pptx_save lib d = inr data ->
     exists d', pptx_load lib data = inr d'
                /\ slide_count d' = slide_count d /\ first_slide_title d' = first_slide_title d) ->
  upload_presentation_to_s3 lib d c bucket key metadata w = (inr res, w1) ->
  exists d' w2,
    download_presentation_from_s3 lib c bucket key w1 = (inr d', w2)
    /\ slide_count d' = slide_count d /\ first_slide_title d' = first_slide_title d.
Proof.
  intros Hlib Hup.
  destruct (upload_success_inv _ _ _ _ _ _ _ _ _ Hup)
    as (data & cr & Hs & Hc & Ha & Hb & (o & Ho & Hbody) & _).
  destruct (Hlib data Hs) as (d' & Hload & Hcount & Htitle).
  destruct (download_fileobj_existing lib c cr bucket key w1 o Hc Ha Hb Ho) as [w' Hdl].
  exists d', w'. split; [|split; assumption].
  unfold download_presentation_from_s3, try_except, bind.
  rewrite Hdl, Hbody. unfold lift.
  rewrite (proj1 (bio_roundtrip data)), Hload. reflexivity.
Qed.

(** C5: a successful upload reports [success] and a [size_bytes] equal to
    the exact length of the document's serialisation, and the stored object
    holds that whole serialisation. *)
Theorem upload_size_bytes_exact (lib : Collaborators) (d : Presentation) (c : S3Client)
    (bucket key : string) (metadata : option (list (string * string))) (w w1 : World) (res : Dict) :
  upload_presentation_to_s3 lib d c bucket key metadata w = (inr res, w1) ->
  exists data,
    pptx_save lib d = inr data
    /\ dict_get "success" res = Some (VBool true)
    /\ dict_get "size_bytes" res = Some (VInt (length data))
    /\ option_map obj_body (obj_get (bucket, key) (srv_objects (server w1))) = Some data.
Proof.
  intros Hup.
  destruct (upload_success_inv _ _ _ _ _ _ _ _ _ Hup)
    as (data & cr & Hs & _ & _ & _ & (o & Ho & Hbody) & Hres).
  exists data. subst res. repeat split; try assumption.
  rewrite Ho. simpl. now rewrite Hbody.
Qed.

(* ------------------------------------------------------------------ *)
(** ** Failure taxonomy *)

Import Scenario.

(** C6: the code at a download of a key that does not exist.  boto3's
    [download_fileobj] asks for the object with HEAD first, so the service's
    answer is the bare status code [404]; [download_presentation_from_s3]
    only maps [NoSuchKey] and [NoSuchBucket] to [FileNotFoundError] and
    raises the generic [Exception] here, while its sibling
    [get_s3_object_metadata] maps the same [404] to [FileNotFoundError]. *)
Theorem download_missing_key_is_generic :
  fst (download_presentation_from_s3 toy_lib good_client "test-bucket-powerpoint" "missing.pptx" world0)
    = inl (GenericException "S3 download failed (404): Not Found")
  /\ fst (download_presentation_from_s3 toy_lib good_client "no-such-bucket" "deck.pptx" world0)
    = inl (GenericException "S3 download failed (404): Not Found")
  /\ fst (get_s3_object_metadata toy_lib good_client "test-bucket-powerpoint" "missing.pptx" world0)
    = inl (FileNotFoundError "Object not found: s3://test-bucket-powerpoint/missing.pptx").
Proof. vm_compute. repeat split. Qed.

(** C7: the code when the service rejects the key pair.  Only a client
    without any credentials ([NoCredentialsError], raised before a request
    is sent) gets the credential-specific [ValueError]; a rejection by the
    service arrives as a [ClientError] and is raised as the generic
    [Exception] that also carries every other transfer failure. *)
Theorem backend_credential_rejection_is_generic :
  fst (upload_presentation_to_s3 toy_lib deck bad_key_client "test-bucket-powerpoint" "deck.pptx" None world0)
    = inl (GenericException ("S3 upload failed (InvalidAccessKeyId): "
             ++ "The AWS Access Key Id you provided does not exist in our records."))
  /\ fst (download_presentation_from_s3 toy_lib bad_key_client "test-bucket-powerpoint" "broken.pptx" world0)
    = inl (GenericException "S3 download failed (403): Forbidden")
  /\ fst (upload_presentation_to_s3 toy_lib deck no_cred_client "test-bucket-powerpoint" "deck.pptx" None world0)
    = inl (ValueError "Invalid S3 credentials provided")
  /\ fst (download_presentation_from_s3 toy_lib no_cred_client "test-bucket-powerpoint" "broken.pptx" world0)
    = inl (ValueError "Invalid S3 credentials provided").
Proof. vm_compute. repeat split. Qed.

(** C8: [build_slides_from_s3_xlsx] has no exception handling: for a key
    that does not exist the [ClientError] of [get_object] leaves the tool,
    where the sibling tools of [register_s3_tools] turn the same failure
    into an [error] entry. *)
Theorem xlsx_tool_lets_client_error_escape :
  fst (build_slides_from_s3_xlsx toy_lib "test-bucket-powerpoint" "missing.xlsx" None None None true
         "From S3 XLSX" world0)
    = inl (ClientError "NoSuchKey" "The specified key does not exist." "GetObject")
  /\ fst (get_s3_presentation_info toy_lib "test-bucket-powerpoint" "missing.xlsx" "default" world0)
    = inr (error_dict "Object not found: s3://test-bucket-powerpoint/missing.xlsx").
Proof. vm_compute. repeat split. Qed.

(** C10: the download tool stores the presentation in the registry before
    it counts its slides; when the count raises (a slide id without a
    relationship), the tool reports an error while the registry already
    holds the new entry. *)
Theorem download_tool_error_after_registry_write :
  presentations world0 = []
  /\ let '(r, w1) := tool_download_presentation_from_s3 toy_lib "test-bucket-powerpoint" "broken.pptx"
                       "default" None world0 in
     r = inr (error_dict "Failed to download presentation: 'rId9'")
     /\ presentations w1 = [("presentation_1", dangling_deck)].
Proof. vm_compute. repeat split. Qed.

(* ------------------------------------------------------------------ *)
(** ** Named connections *)

(** C9: every S3 tool called with a connection name missing from the
    registry returns the not-configured error and leaves the whole process
    state unchanged; in particular no request reaches the network. *)
Theorem unconfigured_connection_no_network (lib : Collaborators) (w : World)
    (connection_name bucket_name object_key : string) (presentation_id id prefix : option string)
    (metadata : option (list (string * string))) (max_keys : nat) :
  dict_get connection_name (s3_clients w) = None ->
  let err := not_configured_error connection_name in
  tool_upload_presentation_to_s3 lib bucket_name object_key connection_name presentation_id metadata w
    = (inr err, w)
  /\ tool_download_presentation_from_s3 lib bucket_name object_key connection_name id w = (inr err, w)
  /\ list_s3_presentations lib bucket_name connection_name prefix max_keys w = (inr err, w)
  /\ delete_s3_presentation lib bucket_name object_key connection_name w = (inr err, w)
  /\ get_s3_presentation_info lib bucket_name object_key connection_name w = (inr err, w).
Proof.
  intros Hnone err.
  unfold tool_upload_presentation_to_s3, tool_download_presentation_from_s3,
    list_s3_presentations, delete_s3_presentation, get_s3_presentation_info,
    bind, get_world.
  rewrite Hnone. repeat split.
Qed.

(* ------------------------------------------------------------------ *)
(** ** Further properties of the code *)

Lemma lexical_aux_no_dotdot (acc ps : list string) :
  ~ In ".." ps -> lexical_realpath_aux acc ps = (rev acc ++ ps)%list.
Proof.
  revert acc; induction ps as [|p ps IH]; intros acc Hin; simpl.
  - now rewrite app_nil_r.
  - destruct (String.eqb p "..") eqn:E.
    + apply String.eqb_eq in E. subst. exfalso. apply Hin. now left.
    + rewrite IH by (intros H; apply Hin; now right). simpl. now rewrite <- app_assoc.
Qed.

Lemma lexical_realpath_no_dotdot (ps : list string) :
  ~ In ".." ps -> lexical_realpath ps = ps.
Proof. intros H. unfold lexical_realpath. now rewrite lexical_aux_no_dotdot. Qed.





(** X1: whatever the canonicalisation, a path that [sanitize_path] returns for a relative input, or for any input when absolute paths are not allowed, lies within the resolved base directory; with [allow_absolute] an absolute input is returned canonicalised as it is, without the base check. *)
Theorem sanitize_path_result_within_base (realpath : list string -> list string)
    (cwd : list string) (file_path : string) (base_dir : option string) (allow_absolute : bool) :
  ((allow_absolute = false \/ is_absolute (parse file_path) = false) ->
   forall s, sanitize_path realpath cwd file_path base_dir allow_absolute = inr s ->
   exists r, s = abs_str r /\ is_prefix (base_path_of realpath cwd base_dir) r = true)
  /\ (allow_absolute = true -> is_absolute (parse file_path) = true ->
      sanitize_path realpath cwd file_path base_dir allow_absolute
      = inr (abs_str (realpath (parts (parse file_path))))).
Proof.
  split.
  - intros Hallow s. unfold sanitize_path. cbv zeta.
    assert (Hgate : allow_absolute && is_absolute (parse file_path) = false).
    { destruct Hallow as [-> | ->]; [reflexivity | apply andb_false_r]. }
    rewrite Hgate.
    destruct (is_prefix _ _) eqn:Hp; intros H; inversion H; subst. eauto.
  - intros -> Habs. unfold sanitize_path. cbv zeta. rewrite Habs. simpl.
    unfold resolve. unfold is_absolute in Habs. now rewrite Habs.
Qed.

(** X2: with the lexical canonicalisation and the working directory as base, a relative path without [..] components resolves to the working directory joined with its components. *)
Theorem sanitize_path_relative_plain (cwd : list string) (file_path : string) (allow_absolute : bool) :
  ~ In ".." cwd -> is_absolute (parse file_path) = false -> ~ In ".." (parts (parse file_path)) ->
  sanitize_path lexical_realpath cwd file_path None allow_absolute
  = inr (abs_str (cwd ++ parts (parse file_path))%list).
Proof.
  intros Hcwd Hrel Hfp.
  assert (Hbase : base_path_of lexical_realpath cwd None = cwd).
  { unfold base_path_of, resolve. simpl. now apply lexical_realpath_no_dotdot. }
  unfold sanitize_path. cbv zeta. rewrite Hbase, Hrel, andb_false_r.
  unfold resolved_path_of. cbv zeta. rewrite Hrel. unfold join, resolve.
  unfold is_absolute in Hrel. rewrite Hrel. simpl.
  rewrite lexical_realpath_no_dotdot
    by (rewrite in_app_iff; intros [H|H]; [apply Hcwd|apply Hfp]; exact H).
  now rewrite is_prefix_app.
Qed.














Lemma dict_get_set_same {V} (k : string) (v : V) d : dict_get k (dict_set k v d) = Some v.
Proof.
  induction d as [|[k' v'] d IH]; simpl; [now rewrite String.eqb_refl|].
  destruct (String.eqb k k') eqn:E; simpl; [now rewrite String.eqb_refl|now rewrite E].
Qed.

Lemma dict_get_set_other {V} (k k' : string) (v : V) d :
  k' <> k -> dict_get k' (dict_set k v d) = dict_get k' d.
Proof.
  intros Hne. induction d as [|[k0 v0] d IH]; simpl.
  - apply String.eqb_neq in Hne. now rewrite Hne.
  - destruct (String.eqb k k0) eqn:E; simpl.
    + apply String.eqb_eq in E. subst k0. apply String.eqb_neq in Hne. now rewrite Hne.
    + destruct (String.eqb k' k0); [reflexivity|exact IH].
Qed.

Lemma length_dict_set {V} (k : string) (v : V) d :
  length (dict_set k v d) = length d + (if dict_mem k d then 0 else 1).
Proof.
  unfold dict_mem. induction d as [|[k0 v0] d IH]; simpl; [reflexivity|].
  destruct (String.eqb k k0); simpl; [lia|]. rewrite IH. reflexivity.
Qed.

Section Frame.
Context {X : Type} (proj : World -> X).
Hypothesis proj_server : forall s w, proj (set_server s w) = proj w.
Hypothesis proj_log : forall r w, proj (log_request r w) = proj w.

Lemma keeps_ret {A} (a : A) : keeps proj (ret a).
Proof. intros w; reflexivity. Qed.
Lemma keeps_raise {A} e : keeps proj (@raise A e).
Proof. intros w; reflexivity. Qed.
Lemma keeps_lift {A} (r : PyExc + A) : keeps proj (lift r).
Proof. intros w; reflexivity. Qed.
Lemma keeps_bind {A B} (m : M A) (k : A -> M B) :
  keeps proj m -> (forall a, keeps proj (k a)) -> keeps proj (bind m k).
Proof.
  intros Hm Hk w. unfold bind. specialize (Hm w).
  destruct (m w) as [[e|a] w'] eqn:E; simpl in *; [exact Hm|]. now rewrite Hk.
Qed.
Lemma keeps_try {A} (m : M A) (h : PyExc -> M A) :
  keeps proj m -> (forall e, keeps proj (h e)) -> keeps proj (try_except m h).
Proof.
  intros Hm Hh w. unfold try_except. specialize (Hm w).
  destruct (m w) as [[e|a] w'] eqn:E; simpl in *; [now rewrite Hh|exact Hm].
Qed.
Lemma keeps_client_call lib c r : keeps proj (client_call lib c r).
Proof.
  intros w. unfold client_call. destruct (credentials c); [|reflexivity].
  destruct (s3_service _ _ _ _) as [e|[resp s]]; simpl; now rewrite ?proj_server, proj_log.
Qed.

End Frame.

Ltac keeps_tac :=
  repeat match goal with
  | |- keeps _ (try_except _ _) => apply keeps_try; [|intros ?]
  | |- keeps _ (bind _ _) => apply keeps_bind; [|intros ?]
  | |- keeps _ (ret _) => apply keeps_ret
  | |- keeps _ (raise _) => apply keeps_raise
  | |- keeps _ (lift _) => apply keeps_lift
  | |- keeps _ (client_call _ _ _) => apply keeps_client_call; intros; reflexivity
  | |- keeps _ (match ?x with _ => _ end) => destruct x
  | |- keeps _ (if ?x then _ else _) => destruct x
  end.

Lemma download_keeps_registry lib c b k :
  keeps presentations (download_presentation_from_s3 lib c b k).
Proof.
  unfold download_presentation_from_s3, download_fileobj. cbv zeta. keeps_tac.
Qed.

(** A successful download and slide count: what the download tool returns
    and the registry it leaves. *)
Lemma download_tool_run lib bucket key connection_name id w c pres w1 n :
  dict_get connection_name (s3_clients w) = Some c ->
  download_presentation_from_s3 lib c bucket key w = (inr pres, w1) ->
  slide_count pres = inr n ->
  let pid := match id with
             | Some i => i
             | None => "presentation_" ++ nat_str (length (presentations w) + 1)
             end in
  tool_download_presentation_from_s3 lib bucket key connection_name id w
  = (inr [("success", VBool true); ("presentation_id", VStr pid);
          ("bucket", VStr bucket); ("key", VStr key);
          ("connection_name", VStr connection_name); ("slide_count", VInt n);
          ("message", VStr ("Successfully downloaded presentation from s3://"
                            ++ bucket ++ "/" ++ key))],
     set_presentations (dict_set pid pres (presentations w)) w1).
Proof.
  intros Hc Hdl Hn pid.
  assert (Hreg : presentations w1 = presentations w).
  { pose proof (download_keeps_registry lib c bucket key w) as H. now rewrite Hdl in H. }
  unfold tool_download_presentation_from_s3, bind at 1, get_world. rewrite Hc.
  unfold try_except, bind, get_world, modify, lift. rewrite Hdl.
  cbv beta iota zeta. rewrite Hreg, Hn. reflexivity.
Qed.

(** X10: when the download succeeds and the slides can be counted, the tool stores the presentation under its id (given, or [presentation_N] with N one more than the registry size), leaves every other entry unchanged and reports the id and the slide count. *)
Theorem download_tool_success lib bucket key connection_name id w c pres w1 n :
  dict_get connection_name (s3_clients w) = Some c ->
  download_presentation_from_s3 lib c bucket key w = (inr pres, w1) ->
  slide_count pres = inr n ->
  let pid := match id with
             | Some i => i
             | None => "presentation_" ++ nat_str (length (presentations w) + 1)
             end in
  let registry := dict_set pid pres (presentations w) in
  exists r,
    tool_download_presentation_from_s3 lib bucket key connection_name id w
      = (inr r, set_presentations registry w1)
    /\ dict_get "presentation_id" r = Some (VStr pid)
    /\ dict_get "slide_count" r = Some (VInt n)
    /\ dict_get pid registry = Some pres
    /\ (forall other, other <> pid -> dict_get other registry = dict_get other (presentations w))
    /\ length registry = length (presentations w) + (if dict_mem pid (presentations w) then 0 else 1).
Proof.
  intros Hc Hdl Hn pid registry.
  rewrite (download_tool_run lib bucket key connection_name id w c pres w1 n Hc Hdl Hn).
  fold pid. fold registry.
  eexists. split; [reflexivity|].
  split; [reflexivity|]. split; [reflexivity|].
  split; [apply dict_get_set_same|]. split.
  - intros other Hne. now apply dict_get_set_other.
  - apply length_dict_set.
Qed.

(** X11: when the generated id [presentation_N] is already taken, the tool downloading without an id replaces that presentation: the registry does not grow. *)
Theorem download_tool_autoid_overwrites lib bucket key connection_name w c pres w1 n :
  dict_get connection_name (s3_clients w) = Some c ->
  download_presentation_from_s3 lib c bucket key w = (inr pres, w1) ->
  slide_count pres = inr n ->
  let pid := "presentation_" ++ nat_str (length (presentations w) + 1) in
  dict_mem pid (presentations w) = true ->
  let w2 := snd (tool_download_presentation_from_s3 lib bucket key connection_name None w) in
  length (presentations w2) = length (presentations w)
  /\ dict_get pid (presentations w2) = Some pres.
Proof.
  intros Hc Hdl Hn pid Hmem w2. unfold w2.
  rewrite (download_tool_run lib bucket key connection_name None w c pres w1 n Hc Hdl Hn).
  cbn [snd presentations set_presentations]. fold pid.
  rewrite length_dict_set, Hmem. split; [lia|apply dict_get_set_same].
Qed.

(** X12: when the connection exists but no presentation is resolved (no id and no current one, or an unknown id), the upload tool returns the no-presentation error and changes nothing. *)
Theorem upload_tool_unresolved_presentation lib bucket key connection_name presentation_id
    metadata w c :
  dict_get connection_name (s3_clients w) = Some c ->
  match (match presentation_id with Some p => Some p | None => current_presentation_id w end) with
  | None => True
  | Some pid => dict_get pid (presentations w) = None
  end ->
  tool_upload_presentation_to_s3 lib bucket key connection_name presentation_id metadata w
  = (inr no_presentation_error, w).
Proof.
  intros Hc Hpid.
  unfold tool_upload_presentation_to_s3, bind, get_world. rewrite Hc.
  destruct (match presentation_id with Some p => Some p | None => current_presentation_id w end)
    as [pid|]; [|reflexivity].
  now rewrite Hpid.
Qed.

(** X13: a successful upload tool call returns the utility's result extended with the presentation id and the connection name. *)
Theorem upload_tool_success lib bucket key connection_name presentation_id metadata w c pid
    pres res w1 :
  dict_get connection_name (s3_clients w) = Some c ->
  match presentation_id with Some p => Some p | None => current_presentation_id w end = Some pid ->
  dict_get pid (presentations w) = Some pres ->
  upload_presentation_to_s3 lib pres c bucket key metadata w = (inr res, w1) ->
  exists r,
    tool_upload_presentation_to_s3 lib bucket key connection_name presentation_id metadata w
      = (inr r, w1)
    /\ dict_get "presentation_id" r = Some (VStr pid)
    /\ dict_get "connection_name" r = Some (VStr connection_name)
    /\ (forall k, k <> "presentation_id" -> k <> "connection_name" -> dict_get k r = dict_get k res).
Proof.
  intros Hc Hpid Hp Hup.
  unfold tool_upload_presentation_to_s3, bind at 1, get_world. rewrite Hc, Hpid, Hp.
  unfold try_except, bind, ret. rewrite Hup.
  eexists. split; [reflexivity|].
  split; [|split].
  - rewrite dict_get_set_other by discriminate. apply dict_get_set_same.
  - apply dict_get_set_same.
  - intros k Hk1 Hk2. rewrite !dict_get_set_other by assumption. reflexivity.
Qed.


Lemma post_true {A} (m : M A) : post (fun _ => True) m.
Proof. intros w a w' _. exact I. Qed.
Lemma post_ret {A} (P : A -> Prop) a : P a -> post P (ret a).
Proof. intros H w a' w' E. inversion E; subst. exact H. Qed.
Lemma post_raise {A} (P : A -> Prop) e : post P (raise e).
Proof. intros w a w' E. discriminate. Qed.
Lemma post_bind {A B} (Q : A -> Prop) (P : B -> Prop) (m : M A) (k : A -> M B) :
  post Q m -> (forall a, Q a -> post P (k a)) -> post P (bind m k).
Proof.
  intros Hm Hk w b w' E. unfold bind in E.
  destruct (m w) as [[e|a] w1] eqn:Em; [discriminate|].
  exact (Hk a (Hm w a w1 Em) w1 b w' E).
Qed.
Lemma post_try {A} (P : A -> Prop) m h :
  post P m -> (forall e, post P (h e)) -> post P (try_except m h).
Proof.
  intros Hm Hh w a w' E. unfold try_except in E.
  destruct (m w) as [[e|a'] w1] eqn:Em.
  - exact (Hh e w1 a w' E).
  - injection E as -> ->. exact (Hm _ _ _ Em).
Qed.

Ltac post_tac :=
  repeat match goal with
  | |- post _ (try_except _ _) => apply post_try; [|intros ?]
  | |- post _ (bind _ _) => apply (post_bind (fun _ => True)); [apply post_true|intros ? _]
  | |- post _ (ret _) => apply post_ret
  | |- post _ (raise _) => apply post_raise
  | |- post _ (match ?x with _ => _ end) => destruct x
  | |- post _ (if ?x then _ else _) => destruct x
  end.

Lemma upload_no_error lib d c b k m : post no_error_entry (upload_presentation_to_s3 lib d c b k m).
Proof. unfold upload_presentation_to_s3. cbv zeta. post_tac; reflexivity. Qed.
Lemma list_no_error lib c b p n : post no_error_entry (list_s3_objects lib c b p n).
Proof. unfold list_s3_objects. cbv zeta. post_tac; reflexivity. Qed.
Lemma delete_no_error lib c b k : post no_error_entry (delete_s3_object lib c b k).
Proof. unfold delete_s3_object. post_tac; reflexivity. Qed.
Lemma metadata_no_error lib c b k : post no_error_entry (get_s3_object_metadata lib c b k).
Proof. unfold get_s3_object_metadata. post_tac; reflexivity. Qed.

Lemma no_error_set k v d : k <> "error" -> no_error_entry d -> no_error_entry (dict_set k v d).
Proof. intros Hk H. unfold no_error_entry. rewrite dict_get_set_other by congruence. exact H. Qed.

(** A [try] whose handlers all return an error dict never raises. *)
Lemma try_tool_result (m : M Dict) (h : PyExc -> M Dict) w :
  post tool_result m -> (forall e, exists msg, h e = ret (error_dict msg)) ->
  exists d, fst (try_except m h w) = inr d /\ tool_result d.
Proof.
  intros Hm Hh. unfold try_except.
  destruct (m w) as [[e|a] w1] eqn:Em.
  - destruct (Hh e) as [msg ->]. exists (error_dict msg). split; [reflexivity|]. left; eauto.
  - exists a. split; [reflexivity|]. exact (Hm w a w1 Em).
Qed.

Lemma error_tool_result msg w : exists d, fst (ret (error_dict msg) w) = inr d /\ tool_result d.
Proof. eexists; split; [reflexivity|]. left; eauto. Qed.

Ltac handler_tac := intros e; try destruct e; eexists; reflexivity.

(** X14: none of the tools of [register_s3_tools] raises: each returns either exactly the error dict of a message or a dict without an error entry. *)
Theorem s3_tools_return_results lib connection_name endpoint_url access_key secret_key region
    bucket key presentation_id id prefix max_keys metadata w :
  (exists d, fst (configure_s3_connection lib connection_name endpoint_url access_key secret_key
                    region w) = inr d /\ tool_result d)
  /\ (exists d, fst (tool_upload_presentation_to_s3 lib bucket key connection_name presentation_id
                       metadata w) = inr d /\ tool_result d)
  /\ (exists d, fst (tool_download_presentation_from_s3 lib bucket key connection_name id w)
                = inr d /\ tool_result d)
  /\ (exists d, fst (list_s3_presentations lib bucket connection_name prefix max_keys w)
                = inr d /\ tool_result d)
  /\ (exists d, fst (delete_s3_presentation lib bucket key connection_name w) = inr d
                /\ tool_result d)
  /\ (exists d, fst (get_s3_presentation_info lib bucket key connection_name w) = inr d
                /\ tool_result d)
  /\ (exists d, fst (list_s3_connections w) = inr d /\ tool_result d).
Proof.
  split; [|split; [|split; [|split; [|split; [|split]]]]].
  - unfold configure_s3_connection. apply try_tool_result; [|handler_tac].
    post_tac. right; reflexivity.
  - unfold tool_upload_presentation_to_s3, bind at 1, get_world.
    destruct (dict_get connection_name (s3_clients w)) as [c|]; [|apply error_tool_result].
    destruct (match presentation_id with Some p => Some p | None => _ end) as [pid|];
      [|apply error_tool_result].
    destruct (dict_get pid (presentations w)) as [pres|]; [|apply error_tool_result].
    apply try_tool_result; [|handler_tac].
    apply (post_bind no_error_entry); [apply upload_no_error|].
    intros res Hres. apply post_ret. right.
    apply no_error_set; [discriminate|]. apply no_error_set; [discriminate|exact Hres].
  - unfold tool_download_presentation_from_s3, bind at 1, get_world.
    destruct (dict_get connection_name (s3_clients w)) as [c|]; [|apply error_tool_result].
    apply try_tool_result; [|handler_tac].
    cbv zeta. post_tac. right; reflexivity.
  - unfold list_s3_presentations, bind at 1, get_world.
    destruct (dict_get connection_name (s3_clients w)) as [c|]; [|apply error_tool_result].
    apply try_tool_result; [|handler_tac].
    apply (post_bind no_error_entry); [apply list_no_error|].
    intros res Hres. apply post_ret. right. apply no_error_set; [discriminate|exact Hres].
  - unfold delete_s3_presentation, bind at 1, get_world.
    destruct (dict_get connection_name (s3_clients w)) as [c|]; [|apply error_tool_result].
    apply try_tool_result; [|handler_tac].
    apply (post_bind no_error_entry); [apply delete_no_error|].
    intros res Hres. apply post_ret. right. apply no_error_set; [discriminate|exact Hres].
  - unfold get_s3_presentation_info, bind at 1, get_world.
    destruct (dict_get connection_name (s3_clients w)) as [c|]; [|apply error_tool_result].
    apply try_tool_result; [|handler_tac].
    apply (post_bind no_error_entry); [apply metadata_no_error|].
    intros res Hres. apply post_ret. right. apply no_error_set; [discriminate|exact Hres].
  - eexists; split; [reflexivity|]. right; reflexivity.
Qed.

Lemma s3_service_client_error lib cr srv r e :
  s3_service lib cr srv r = inl e -> exists code msg op, e = ClientError code msg op.
Proof.
  unfold s3_service. intros H.
  repeat match type of H with
         | context [if ?x then _ else _] => destruct x
         | context [match ?x with _ => _ end] => destruct x
         end; inversion H; eauto.
Qed.

Lemma client_call_error lib c r w e w' :
  credentials c <> None -> client_call lib c r w = (inl e, w') ->
  exists code msg op, e = ClientError code msg op.
Proof.
  unfold client_call. destruct (credentials c) as [cr|]; [|congruence]. intros _.
  destruct (s3_service lib cr (server w) r) as [e'|[resp s]] eqn:E; intros H; inversion H; subst.
  eapply s3_service_client_error; eauto.
Qed.

Lemma upload_error_generic lib d c b k m w e w' :
  credentials c <> None ->
  (forall e', pptx_save lib d = inl e' -> e' <> NoCredentialsError) ->
  upload_presentation_to_s3 lib d c b k m w = (inl e, w') ->
  exists msg, e = GenericException msg.
Proof.
  intros Hc Hsave. unfold upload_presentation_to_s3, try_except, bind, lift.
  destruct (pptx_save lib d) as [e'|data] eqn:Hs.
  - specialize (Hsave e' eq_refl). destruct e'; try congruence; simpl; intros H; inversion H; eauto.
  - cbv zeta.
    destruct (client_call lib c _ w) as [[e'|resp] w1] eqn:Hcall.
    + destruct (client_call_error _ _ _ _ _ _ Hc Hcall) as (code & msg & op & ->).
      simpl. intros H; inversion H; eauto.
    + unfold ret. discriminate.
Qed.

Lemma download_error_not_credential lib c b k w e w' :
  credentials c <> None ->
  (forall bs e', pptx_load lib bs = inl e' -> e' <> NoCredentialsError) ->
  download_presentation_from_s3 lib c b k w = (inl e, w') ->
  exists msg, e = GenericException msg \/ e = FileNotFoundError msg.
Proof.
  intros Hc Hload.
  unfold download_presentation_from_s3, download_fileobj, try_except, bind, ret, lift.
  destruct (client_call lib c (HeadObject b k) w) as [[e1|r1] w1] eqn:H1.
  { destruct (client_call_error _ _ _ _ _ _ Hc H1) as (code & msg & op & ->).
    destruct (String.eqb code "NoSuchKey"); [|destruct (String.eqb code "NoSuchBucket")];
      intros H; inversion H; eauto. }
  destruct (client_call lib c (GetObject b k) w1) as [[e2|r2] w2] eqn:H2.
  { destruct (client_call_error _ _ _ _ _ _ Hc H2) as (code & msg & op & ->).
    destruct (String.eqb code "NoSuchKey"); [|destruct (String.eqb code "NoSuchBucket")];
      intros H; inversion H; eauto. }
  destruct r2; cbv zeta;
  match goal with
  | |- context [pptx_load lib ?bs] => destruct (pptx_load lib bs) as [e3|p] eqn:H3
  end;
  try discriminate;
  (specialize (Hload _ _ H3); destruct e3; try congruence; intros H;
   repeat match type of H with context [if ?x then _ else _] => destruct x end;
   inversion H; eauto).
Qed.

Lemma Forall_dict_set {V} (P : string * V -> Prop) k v d :
  P (k, v) -> Forall P d -> Forall P (dict_set k v d).
Proof.
  intros Hkv Hd. induction Hd as [|[k' v'] d Hx Hd IH]; simpl; [now constructor|].
  destruct (String.eqb k k'); constructor; auto.
Qed.

Lemma Forall_dict_get {V} (P : string * V -> Prop) k v d :
  Forall P d -> dict_get k d = Some v -> exists k', P (k', v).
Proof.
  intros Hd. induction Hd as [|[k' v'] d Hx Hd IH]; simpl; [discriminate|].
  destruct (String.eqb k k'); [intros H; inversion H; subst; eauto|exact IH].
Qed.

(** X9: when every registered client has keys, configuring a connection keeps it so, and then no registered client can make an upload or a download raise the invalid-credentials [ValueError]. *)
Theorem configured_clients_never_credential_error lib connection_name endpoint_url access_key
    secret_key region w :
  (forall d e, pptx_save lib d = inl e -> e <> NoCredentialsError) ->
  (forall bs e, pptx_load lib bs = inl e -> e <> NoCredentialsError) ->
  Forall (fun e => credentials (snd e) <> None) (s3_clients w) ->
  let w1 := snd (configure_s3_connection lib connection_name endpoint_url access_key secret_key
                   region w) in
  Forall (fun e => credentials (snd e) <> None) (s3_clients w1)
  /\ forall name c, dict_get name (s3_clients w1) = Some c ->
     forall d bucket key metadata w2 e w3,
       (upload_presentation_to_s3 lib d c bucket key metadata w2 = (inl e, w3)
        \/ download_presentation_from_s3 lib c bucket key w2 = (inl e, w3)) ->
       e <> ValueError "Invalid S3 credentials provided".
Proof.
  intros Hsave Hload Hall w1.
  assert (Hinv : Forall (fun e => credentials (snd e) <> None) (s3_clients w1)).
  { unfold w1, configure_s3_connection, create_s3_client, try_except, bind, lift, get_world,
      modify, ret.
    destruct (endpoint_ok lib endpoint_url); simpl; [|exact Hall].
    apply Forall_dict_set; [simpl; discriminate|exact Hall]. }
  split; [exact Hinv|].
  intros name c Hget d bucket key metadata w2 e w3 [Hup|Hdl].
  - destruct (Forall_dict_get _ _ _ _ Hinv Hget) as [k' Hc]. simpl in Hc.
    destruct (upload_error_generic _ _ _ _ _ _ _ _ _ Hc (Hsave d) Hup) as [msg ->].
    discriminate.
  - destruct (Forall_dict_get _ _ _ _ Hinv Hget) as [k' Hc]. simpl in Hc.
    destruct (download_error_not_credential _ _ _ _ _ _ _ Hc Hload Hdl) as [msg [-> | ->]];
      discriminate.
Qed.

Lemma bind_inr {A B} (m : M A) (k : A -> M B) w b w2 :
  bind m k w = (inr b, w2) -> exists a w1, m w = (inr a, w1) /\ k a w1 = (inr b, w2).
Proof.
  unfold bind. destruct (m w) as [[e|a] w1]; intros H; [discriminate|]. eauto.
Qed.
Lemma lift_inr {A} (r : PyExc + A) w a w1 : lift r w = (inr a, w1) -> r = inr a /\ w1 = w.
Proof. unfold lift. intros H; inversion H; auto. Qed.
Lemma ret_inr {A} (x : A) w a w1 : ret x w = (inr a, w1) -> x = a /\ w1 = w.
Proof. unfold ret. intros H; inversion H; auto. Qed.
Lemma get_world_inr w a w1 : get_world w = (inr a, w1) -> a = w /\ w1 = w.
Proof. unfold get_world. intros H; inversion H; auto. Qed.
Lemma store_pres_inr pid p w u w1 :
  store_pres pid p w = (inr u, w1) -> w1 = set_presentations (dict_set pid p (presentations w)) w.
Proof. unfold store_pres, bind, get_world, modify. intros H; inversion H; auto. Qed.
Lemma client_call_inr lib c r w resp w1 :
  client_call lib c r w = (inr resp, w1) ->
  net_log w1 = (net_log w ++ [r])%list /\ presentations w1 = presentations w
  /\ current_presentation_id w1 = current_presentation_id w.
Proof.
  unfold client_call. destruct (credentials c); [|discriminate].
  destruct (s3_service _ _ _ _) as [e|[resp' s]]; intros H; inversion H; subst; simpl; auto.
Qed.

(** Runs the tool up to its presentation check: the workbook has been
    fetched over the network and parsed, the registry is untouched. *)
Ltac xlsx_prefix H xcol :=
  unfold build_slides_from_s3_xlsx in H;
  destruct (bind_inr _ _ _ _ _ H) as (w0 & wa & Hm & H1); clear H;
  apply get_world_inr in Hm as [-> ->];
  destruct (bind_inr _ _ _ _ _ H1) as (bs & wb & Hm & H2); clear H1;
  unfold get_object_bytes in Hm;
  destruct (bind_inr _ _ _ _ _ Hm) as (r & wc & Hc & Hr); clear Hm;
  assert (wb = wc) by (destruct r; apply ret_inr in Hr; destruct Hr; congruence); subst wb;
  apply client_call_inr in Hc as (Hlog & Hpres & Hcur);
  destruct (bind_inr _ _ _ _ _ H2) as (wbk & w2 & Hm & H3); clear H2;
  apply lift_inr in Hm as [_ ->];
  destruct (bind_inr _ _ _ _ _ H3) as (rows & w3 & Hm & H4); clear H3;
  apply lift_inr in Hm as [_ ->];
  destruct (bind_inr _ _ _ _ _ H4) as (row0 & w4 & Hm & H5); clear H4;
  apply lift_inr in Hm as [_ ->];
  destruct (bind_inr _ _ _ _ _ H5) as (records & w5 & Hm & H6); clear H5;
  apply lift_inr in Hm as [_ ->];
  destruct (bind_inr _ _ _ _ _ H6) as (xc & w6 & Hm & H7); clear H6;
  assert (w6 = wc) by
    (destruct xcol as [x|]; [destruct (String.eqb x "")|];
     first [apply lift_inr in Hm | apply ret_inr in Hm]; destruct Hm; congruence);
  subst w6; clear Hm;
  destruct (bind_inr _ _ _ _ _ H7) as (w7 & w8 & Hm & H); clear H7;
  apply get_world_inr in Hm as [-> ->].

(** X15: when [build_slides_from_s3_xlsx] reports that no presentation is loaded, it has already fetched the workbook from the service, and it leaves the registry unchanged. *)
Theorem xlsx_tool_fetches_before_presentation_check lib bucket key sheet x_col y_cols add_table
    title w w1 :
  build_slides_from_s3_xlsx lib bucket key sheet x_col y_cols add_table title w
    = (inr (error_dict "No presentation loaded. Create or open one first."), w1) ->
  net_log w1 = (net_log w ++ [GetObject bucket key])%list
  /\ presentations w1 = presentations w.
Proof.
  intros H. xlsx_prefix H x_col.
  destruct (current_presentation_id wc) as [pid|].
  2: { apply ret_inr in H as [_ ->]. auto. }
  destruct (dict_get pid (presentations wc)) as [prs|].
  2: { apply ret_inr in H as [_ ->]. auto. }
  exfalso.
  match type of H with
  | ?m _ = _ => assert (Hp : post (fun d : Dict => dict_get "error" d = None) m)
  end.
  { post_tac; reflexivity. }
  specialize (Hp _ _ _ H). discriminate.
Qed.

Lemma add_slide_layout5_ids p p' rId :
  add_slide_layout5 p = inr (p', rId) -> sldIdLst p' = (sldIdLst p ++ [rId])%list.
Proof.
  unfold add_slide_layout5. destruct (nth_error (slide_layouts p) 5); [|discriminate].
  intros H; inversion H; reflexivity.
Qed.

Lemma set_title_ids rId t p p' : set_title rId t p = inr p' -> sldIdLst p' = sldIdLst p.
Proof.
  unfold set_title. destruct (dict_get rId (slide_rels p)) as [[[tt|] sh]|]; try discriminate.
  intros H; inversion H; reflexivity.
Qed.

Lemma add_shape_ids rId sh p : sldIdLst (add_shape rId sh p) = sldIdLst p.
Proof. unfold add_shape. destruct (dict_get rId (slide_rels p)) as [[tt sh']|]; reflexivity. Qed.

(** X16: when [build_slides_from_s3_xlsx] succeeds it appends slides to the current presentation, two with the table and one without, and reports its id. *)
Theorem xlsx_tool_adds_slides lib bucket key sheet x_col y_cols add_table title w d w1 :
  build_slides_from_s3_xlsx lib bucket key sheet x_col y_cols add_table title w = (inr d, w1) ->
  dict_get "error" d = None ->
  exists pid p p' new,
    current_presentation_id w = Some pid
    /\ dict_get pid (presentations w) = Some p
    /\ dict_get pid (presentations w1) = Some p'
    /\ sldIdLst p' = (sldIdLst p ++ new)%list
    /\ length new = (if add_table then 2 else 1)
    /\ dict_get "presentation_id" d = Some (VStr pid).
Proof.
  intros H Hd. xlsx_prefix H x_col.
  destruct (current_presentation_id wc) as [pid|] eqn:Ecur.
  2: { apply ret_inr in H as [<- _]. discriminate. }
  destruct (dict_get pid (presentations wc)) as [prs|] eqn:Eprs.
  2: { apply ret_inr in H as [<- _]. discriminate. }
  destruct (bind_inr _ _ _ _ _ H) as (pm & wm & Hif & Hrest); clear H.
  assert (Hmid : dict_get pid (presentations wm) = Some pm
                 /\ exists new, sldIdLst pm = (sldIdLst prs ++ new)%list
                                /\ length new = (if add_table then 1 else 0)).
  { destruct add_table.
    - destruct (bind_inr _ _ _ _ _ Hif) as ([p1 r1] & wx & Hm & H1); clear Hif.
      apply lift_inr in Hm as [Ha1 ->].
      destruct (bind_inr _ _ _ _ _ H1) as (u1 & wx1 & Hs1 & H2); clear H1.
      apply store_pres_inr in Hs1 as ->.
      destruct (bind_inr _ _ _ _ _ H2) as (p2 & wx2 & Hm & H3); clear H2.
      apply lift_inr in Hm as [Ht ->].
      destruct (bind_inr _ _ _ _ _ H3) as (u2 & wx3 & Hs2 & H4); clear H3.
      apply store_pres_inr in Hs2 as ->.
      destruct (bind_inr _ _ _ _ _ H4) as (u3 & wx4 & Hs3 & H5); clear H4.
      apply store_pres_inr in Hs3 as ->.
      apply ret_inr in H5 as [<- ->]. cbn [presentations set_presentations].
      split; [apply dict_get_set_same|].
      exists [r1]. split; [|reflexivity].
      rewrite add_shape_ids. rewrite (set_title_ids _ _ _ _ Ht).
      exact (add_slide_layout5_ids _ _ _ Ha1).
    - apply ret_inr in Hif as [<- ->]. split; [exact Eprs|].
      exists []. split; [now rewrite app_nil_r|reflexivity]. }
  destruct Hmid as (Hpm & new1 & Hnew1 & Hlen1).
  destruct (bind_inr _ _ _ _ _ Hrest) as ([p3 r3] & wy & Hm & H1); clear Hrest.
  apply lift_inr in Hm as [Ha3 ->].
  destruct (bind_inr _ _ _ _ _ H1) as (u1 & wy1 & Hs1 & H2); clear H1.
  apply store_pres_inr in Hs1 as ->.
  destruct (bind_inr _ _ _ _ _ H2) as (p4 & wy2 & Hm & H3); clear H2.
  apply lift_inr in Hm as [Ht4 ->].
  destruct (bind_inr _ _ _ _ _ H3) as (u2 & wy3 & Hs2 & H4); clear H3.
  apply store_pres_inr in Hs2 as ->.
  cbv zeta in H4.
  destruct (bind_inr _ _ _ _ _ H4) as (u3 & wy4 & Hs3 & H5); clear H4.
  apply store_pres_inr in Hs3 as ->.
  apply ret_inr in H5 as [<- ->].
  exists pid, prs, (add_shape r3 (ChartShape
           (map (fun rec => match dict_get xc rec with Some v => v | None => CStr "" end) records)
           (map (fun yc => (yc, map (fun rec => chart_value lib (dict_get yc rec)) records))
              (match y_cols with
               | Some ((_ :: _) as ys) => ys
               | _ => infer_y_cols lib (map cell_str row0) xc records
               end))) p4), (new1 ++ [r3])%list.
  split; [congruence|]. split; [congruence|].
  split; [cbn [presentations set_presentations]; apply dict_get_set_same|].
  split.
  - rewrite add_shape_ids, (set_title_ids _ _ _ _ Ht4), (add_slide_layout5_ids _ _ _ Ha3), Hnew1.
    now rewrite app_assoc.
  - split; [rewrite length_app, Hlen1; destruct add_table; reflexivity|reflexivity].
Qed.

(** X17: [try_multiple_approaches] never raises, and its result is either a value without a message or a message without a value. *)
Theorem try_multiple_approaches_never_raises {A} (operation_name : string)
    (approaches : list (M A * string)) (w : World) :
  exists r, fst (try_multiple_approaches operation_name approaches w) = inr r
  /\ ((exists a, r = (Some a, None)) \/ (exists msg, r = (None, Some msg))).
Proof.
  unfold try_multiple_approaches. generalize (@nil string) as msgs.
  revert w. induction approaches as [|[f d] rest IH]; intros w msgs; simpl.
  - eexists; split; [reflexivity|]. right; eauto.
  - unfold try_except, bind, ret. destruct (f w) as [[e|a] w'].
    + apply IH.
    + eexists; split; [reflexivity|]. left; eauto.
Qed.


(** X19: [safe_operation] never raises and keeps the state the operation leaves; a failure is reported by a non-empty custom message if given, otherwise by a message chosen by the exception class. *)
Theorem safe_operation_reports {A} (operation_name : string) (operation_func : M A)
    (error_message : option string) (w : World) :
  let '(r, w') := safe_operation operation_name operation_func error_message w in
  w' = snd (operation_func w)
  /\ match fst (operation_func w) with
     | inr a => r = inr (Some a, None)
     | inl e =>
         exists msg, r = inr (None, Some msg)
         /\ (forall m, error_message = Some m -> m <> "" -> msg = m)
         /\ (error_message = None \/ error_message = Some "" ->
             msg = (match e with
                    | ValueError _ => "Invalid input for "
                    | TypeError _ => "Type error in "
                    | _ => "Failed to execute "
                    end) ++ operation_name ++ ": " ++ exc_str e)
     end.
Proof.
  unfold safe_operation, try_except, bind, ret.
  destruct (operation_func w) as [[e|a] w'] eqn:Ef; simpl; [|split; reflexivity].
  assert (Hor : forall dflt, (forall m, error_message = Some m -> m <> "" -> or_default error_message dflt = m)
                  /\ (error_message = None \/ error_message = Some "" -> or_default error_message dflt = dflt)).
  { intros dflt. unfold or_default. split.
    - intros m -> Hm. apply String.eqb_neq in Hm. now rewrite Hm.
    - intros [-> | ->]; reflexivity. }
  destruct e; simpl; (split; [reflexivity|]); eexists; (split; [reflexivity|]); apply Hor.
Qed.

Lemma str_lower_app (a b : string) : str_lower (a ++ b) = str_lower a ++ str_lower b.
Proof. induction a as [|c a IH]; simpl; [reflexivity|now rewrite IH]. Qed.

Lemma rev_str_app (a b : string) : rev_str (a ++ b) = rev_str b ++ rev_str a.
Proof.
  induction a as [|c a IH]; simpl; [now rewrite str_app_nil_r|].
  rewrite IH. apply str_app_assoc.
Qed.

Lemma prefix_app (a b : string) : String.prefix a (a ++ b) = true.
Proof.
  induction a as [|c a IH]; simpl; [destruct b; reflexivity|].
  destruct (ascii_dec c c); [exact IH|congruence].
Qed.

Lemma ends_with_app (suffix base : string) : ends_with suffix (base ++ suffix) = true.
Proof. unfold ends_with. rewrite rev_str_app. apply prefix_app. Qed.

(** X20: an existing template whose name ends in .pptx or .potx in any letter case is opened, its load error wrapped in the template-loading message. *)
Theorem template_extension_case_insensitive (path_exists : string -> bool)
    (open_presentation : string -> PyExc + Presentation) (base suffix : string) :
  path_exists (base ++ suffix) = true ->
  str_lower suffix = ".pptx" \/ str_lower suffix = ".potx" ->
  create_presentation_from_template path_exists open_presentation (base ++ suffix)
  = match open_presentation (base ++ suffix) with
    | inr p => inr p
    | inl e => inl (GenericException ("Failed to load template file '" ++ (base ++ suffix)
                                      ++ "': " ++ exc_str e))
    end.
Proof.
  intros Hex Hsuf. unfold create_presentation_from_template. rewrite Hex. simpl.
  rewrite str_lower_app.
  destruct Hsuf as [Hs|Hs]; rewrite Hs, ends_with_app; simpl; [reflexivity|].
  now rewrite orb_true_r.
Qed.

(** ** Witnesses *)

Lemma sanitize_path_rejects_traversal_witness :
  sanitize_path lexical_realpath ["home"; "user"] "templates/../../../etc/passwd" None false
  = inl (ValueError (traversal_message "templates/../../../etc/passwd" ["etc"; "passwd"]
                       ["home"; "user"])).
Proof.
  exact (proj1 (sanitize_path_rejects_traversal lexical_realpath ["home"; "user"]
                  "templates/../../../etc/passwd" None false (or_introl eq_refl) eq_refl)).
Defined.

(** C2 counterexample: [/tmp/..] is absolute, its final segment is [..],
    and [sanitize_path] raises the traversal error instead of returning a
    path under the base directory. *)
Lemma sanitize_path_abs_dotdot_rejected :
  is_absolute (parse "/tmp/..") = true
  /\ sanitize_path lexical_realpath ["home"; "user"] "/tmp/.." None false
     = inl (ValueError (traversal_message "/tmp/.." ["home"] ["home"; "user"]))
  /\ ~ (exists s, sanitize_path lexical_realpath ["home"; "user"] "/tmp/.." None false = inr s).
Proof.
  split; [reflexivity|]. split; [reflexivity|].
  intros [s Hs]. vm_compute in Hs. discriminate.
Qed.

Lemma sanitize_path_absolute_rerooted_witness :
  sanitize_path lexical_realpath ["home"; "user"] "/tmp/test.pptx" None false
  = inr "/home/user/test.pptx".
Proof.
  exact (proj2 (sanitize_path_absolute_rerooted lexical_realpath ["home"; "user"] "/tmp/test.pptx"
                  None eq_refl) ltac:(discriminate) eq_refl).
Defined.

Lemma sanitize_path_empty_is_base_witness :
  sanitize_path lexical_realpath ["home"; "user"] "" None false = inr "/home/user".
Proof. exact (sanitize_path_empty_is_base lexical_realpath ["home"; "user"] eq_refl). Defined.

Lemma upload_download_roundtrip_witness :
  exists d' w2,
    download_presentation_from_s3 toy_lib good_client "test-bucket-powerpoint" "deck.pptx"
      (snd (upload_presentation_to_s3 toy_lib deck good_client "test-bucket-powerpoint" "deck.pptx"
              None world0)) = (inr d', w2)
    /\ slide_count d' = slide_count deck /\ first_slide_title d' = first_slide_title deck.
Proof.
  apply (upload_download_roundtrip toy_lib deck good_client "test-bucket-powerpoint" "deck.pptx"
           None world0 _ deck_upload_result).
  - intros data Hs. simpl in Hs. inversion Hs; subst. exists deck. repeat split.
  - vm_compute. reflexivity.
Defined.

Lemma upload_size_bytes_exact_witness :
  exists data,
    pptx_save toy_lib deck = inr data
    /\ dict_get "success" deck_upload_result = Some (VBool true)
    /\ dict_get "size_bytes" deck_upload_result = Some (VInt (length data))
    /\ option_map obj_body
         (obj_get ("test-bucket-powerpoint", "deck.pptx")
            (srv_objects (server (snd (upload_presentation_to_s3 toy_lib deck good_client
                                         "test-bucket-powerpoint" "deck.pptx" None world0)))))
       = Some data.
Proof.
  apply (upload_size_bytes_exact toy_lib deck good_client "test-bucket-powerpoint" "deck.pptx"
           None world0 _ deck_upload_result).
  vm_compute. reflexivity.
Defined.

Lemma unconfigured_connection_no_network_witness :
  tool_download_presentation_from_s3 toy_lib "test-bucket-powerpoint" "deck.pptx" "production" None
    world0 = (inr (not_configured_error "production"), world0).
Proof.
  exact (proj1 (proj2 (unconfigured_connection_no_network toy_lib world0 "production"
                         "test-bucket-powerpoint" "deck.pptx" None None None None 100 eq_refl))).
Defined.

Import Scenario2.


Lemma sanitize_path_result_within_base_witness :
  exists r, "/home/user/templates/test.pptx" = abs_str r
            /\ is_prefix (base_path_of lexical_realpath ["home"; "user"] None) r = true.
Proof.
  exact (proj1 (sanitize_path_result_within_base lexical_realpath ["home"; "user"]
                  "templates/test.pptx" None false) (or_introl eq_refl)
           "/home/user/templates/test.pptx" eq_refl).
Defined.

Lemma sanitize_path_relative_plain_witness :
  sanitize_path lexical_realpath ["home"; "user"] "templates/test.pptx" None false
  = inr (abs_str ["home"; "user"; "templates"; "test.pptx"]).
Proof.
  exact (sanitize_path_relative_plain ["home"; "user"] "templates/test.pptx" false
           ltac:(cbn; intuition discriminate) eq_refl ltac:(vm_compute; intuition discriminate)).
Defined.






Lemma configured_clients_never_credential_error_witness :
  let w1 := snd (configure_s3_connection toy_lib "backup" "http://localhost:9000" "ak" "sk" None
                   world0) in
  Forall (fun e => credentials (snd e) <> None) (s3_clients w1)
  /\ forall name c, dict_get name (s3_clients w1) = Some c ->
     forall d bucket key metadata w2 e w3,
       (upload_presentation_to_s3 toy_lib d c bucket key metadata w2 = (inl e, w3)
        \/ download_presentation_from_s3 toy_lib c bucket key w2 = (inl e, w3)) ->
       e <> ValueError "Invalid S3 credentials provided".
Proof.
  apply (configured_clients_never_credential_error toy_lib "backup" "http://localhost:9000" "ak"
           "sk" None world0).
  - intros d e H. discriminate H.
  - intros bs e H. cbn in H. unfold toy_load in H. destruct bs as [|b [|b' bs]].
    + injection H as <-. discriminate.
    + destruct b; try discriminate H; injection H as <-; discriminate.
    + destruct b; injection H as <-; discriminate.
  - constructor; [discriminate|constructor].
Defined.

Lemma download_tool_success_witness :
  exists r,
    tool_download_presentation_from_s3 xlsx_lib "test-bucket-powerpoint" "deck.pptx" "default" None
      world_open
      = (inr r, set_presentations (dict_set "presentation_2" deck (presentations world_open))
                  (snd (download_presentation_from_s3 xlsx_lib good_client "test-bucket-powerpoint"
                          "deck.pptx" world_open)))
    /\ dict_get "presentation_id" r = Some (VStr "presentation_2")
    /\ dict_get "slide_count" r = Some (VInt 2)
    /\ dict_get "presentation_2" (dict_set "presentation_2" deck (presentations world_open)) = Some deck
    /\ (forall other, other <> "presentation_2" ->
          dict_get other (dict_set "presentation_2" deck (presentations world_open))
          = dict_get other (presentations world_open))
    /\ length (dict_set "presentation_2" deck (presentations world_open)) = 1 + 1.
Proof.
  exact (download_tool_success xlsx_lib "test-bucket-powerpoint" "deck.pptx" "default" None
           world_open good_client deck _ 2 eq_refl ltac:(vm_compute; reflexivity) eq_refl).
Defined.

Lemma download_tool_autoid_overwrites_witness :
  let w2 := snd (tool_download_presentation_from_s3 xlsx_lib "test-bucket-powerpoint" "deck.pptx"
                   "default" None world_gap) in
  length (presentations w2) = 1 /\ dict_get "presentation_2" (presentations w2) = Some deck.
Proof.
  exact (download_tool_autoid_overwrites xlsx_lib "test-bucket-powerpoint" "deck.pptx" "default"
           world_gap good_client deck _ 2 eq_refl ltac:(vm_compute; reflexivity) eq_refl eq_refl).
Defined.

Lemma upload_tool_unresolved_presentation_witness :
  tool_upload_presentation_to_s3 toy_lib "test-bucket-powerpoint" "deck.pptx" "default" None None
    world0 = (inr no_presentation_error, world0).
Proof.
  exact (upload_tool_unresolved_presentation toy_lib "test-bucket-powerpoint" "deck.pptx" "default"
           None None world0 good_client eq_refl I).
Defined.

Lemma upload_tool_success_witness :
  exists r,
    tool_upload_presentation_to_s3 xlsx_lib "test-bucket-powerpoint" "copy.pptx" "default" None None
      world_open
      = (inr r, snd (upload_presentation_to_s3 xlsx_lib deck good_client "test-bucket-powerpoint"
                       "copy.pptx" None world_open))
    /\ dict_get "presentation_id" r = Some (VStr "presentation_1")
    /\ dict_get "connection_name" r = Some (VStr "default")
    /\ (forall k, k <> "presentation_id" -> k <> "connection_name" ->
          dict_get k r
          = dict_get k [("success", VBool true); ("bucket", VStr "test-bucket-powerpoint");
                        ("key", VStr "copy.pptx"); ("size_bytes", VInt 1);
                        ("message", VStr "Successfully uploaded presentation to s3://test-bucket-powerpoint/copy.pptx")]).
Proof.
  exact (upload_tool_success xlsx_lib "test-bucket-powerpoint" "copy.pptx" "default" None None
           world_open good_client "presentation_1" deck _ _ eq_refl eq_refl eq_refl
           ltac:(vm_compute; reflexivity)).
Defined.

Lemma xlsx_tool_fetches_before_presentation_check_witness :
  let w1 := snd (build_slides_from_s3_xlsx xlsx_lib "test-bucket-powerpoint" "sales.xlsx" None None
                   None true "Sales" world_empty) in
  net_log w1 = [GetObject "test-bucket-powerpoint" "sales.xlsx"]
  /\ presentations w1 = [].
Proof.
  exact (xlsx_tool_fetches_before_presentation_check xlsx_lib "test-bucket-powerpoint" "sales.xlsx"
           None None None true "Sales" world_empty _ ltac:(vm_compute; reflexivity)).
Defined.

Lemma xlsx_tool_adds_slides_witness :
  exists pid p p' new,
    current_presentation_id world_open = Some pid
    /\ dict_get pid (presentations world_open) = Some p
    /\ dict_get pid (presentations (snd (build_slides_from_s3_xlsx xlsx_lib "test-bucket-powerpoint"
                                           "sales.xlsx" None None None true "Sales" world_open)))
       = Some p'
    /\ sldIdLst p' = (sldIdLst p ++ new)%list
    /\ length new = 2
    /\ dict_get "presentation_id"
         (match fst (build_slides_from_s3_xlsx xlsx_lib "test-bucket-powerpoint" "sales.xlsx" None
                       None None true "Sales" world_open) with inr d => d | inl _ => [] end)
       = Some (VStr pid).
Proof.
  exact (xlsx_tool_adds_slides xlsx_lib "test-bucket-powerpoint" "sales.xlsx" None None None true
           "Sales" world_open _ _ ltac:(vm_compute; reflexivity) ltac:(vm_compute; reflexivity)).
Defined.


Lemma template_extension_case_insensitive_witness :
  create_presentation_from_template (fun _ => true) (fun _ => inr deck) ("templates/corporate" ++ ".PoTx")
  = inr deck.
Proof.
  exact (template_extension_case_insensitive (fun _ => true) (fun _ => inr deck) "templates/corporate"
           ".PoTx" eq_refl (or_intror eq_refl)).
Defined.
